(** * node-couchdb-client: the request gateway and its callers

    A shallow embedding of [src/couchdb.ts] (class [CouchDb]) and of the two
    older [CouchDBAdmin] classes kept in the repository, followed by the
    properties of the request gateway: header merging, query-string
    composition, status-message resolution, target composition, promise
    settlement, and the local checks made before a request is sent.

    Conventions of the embedding.
    - A JavaScript string is a [string] holding its UTF-8 bytes.
    - A JavaScript number is an integer [Z]; the client uses numbers only for
      ports, status codes, counts and clock readings.  Where a value of any
      type is converted to a number, the conversion is modelled by the class
      of its result ([NaN], below zero, zero, above zero), which is all the
      code reads of it.
    - An absent property or argument ([undefined]) is [None] of an option
      type, or [JsUndefined] where the TypeScript type is [any].
    - An object used as a dictionary is a [gmap]; an object whose property
      order is observable (a JSON payload) is an association list. *)

From Stdlib Require Import ZArith String Ascii List Bool Lia.
From stdpp Require Import base option list gmap strings pretty sorting.

Local Open Scope string_scope.
Local Open Scope Z_scope.

(** ** JavaScript values and the built-ins the client calls *)

Set Warnings "-register-all".

Module Js.

Inductive JsValue : Type :=
| JsUndefined
| JsNull
| JsBool (b : bool)
| JsNumber (n : Z)
| JsString (s : string)
| JsArray (items : list JsValue)
| JsObject (fields : list (string * JsValue)).

(** The error objects the transport and the runtime produce: [name],
    [message] and the optional [statusCode] that request-promise sets on a
    [StatusCodeError]. *)
Record JsError : Type := mkError {
  errName : string;
  errMessage : string;
  errStatusCode : option Z
}.

Definition TypeError (msg : string) : JsError :=
  {| errName := "TypeError"; errMessage := msg; errStatusCode := None |}.

Definition quote : string := String "034"%char EmptyString.

Fixpoint join (sep : string) (parts : list string) : string :=
  match parts with
  | [] => EmptyString
  | [p] => p
  | p :: rest => p ++ sep ++ join sep rest
  end.

(** [Number.prototype.toString] on an integer. *)
Definition NumberToString (n : Z) : string := pretty n.

(** [ToString], as applied by template literals and by
    [encodeURIComponent]. *)
Fixpoint ToString (v : JsValue) : string :=
  match v with
  | JsUndefined => "undefined"
  | JsNull => "null"
  | JsBool true => "true"
  | JsBool false => "false"
  | JsNumber n => NumberToString n
  | JsString s => s
  | JsArray items =>
      join ","
        (map (fun x => match x with
                       | JsUndefined | JsNull => EmptyString
                       | _ => ToString x
                       end) items)
  | JsObject _ => "[object Object]"
  end.

(** Template-literal interpolation of an optional string: [`${x}`]. *)
Definition interpolate (x : option string) : string :=
  match x with
  | Some s => s
  | None => "undefined"
  end.

(** [ToBoolean]. *)
Definition truthy (v : JsValue) : bool :=
  match v with
  | JsUndefined | JsNull => false
  | JsBool b => b
  | JsNumber n => negb (n =? 0)
  | JsString s => negb (String.eqb s EmptyString)
  | JsArray _ | JsObject _ => true
  end.

(** [x || d] on an optional string: the empty string is falsy. *)
Definition or_string (x : option string) (d : option string) : option string :=
  match x with
  | Some s => if String.eqb s EmptyString then d else Some s
  | None => d
  end.

(** An optional string that is truthy, as a string. *)
Definition truthy_string (x : option string) : option string :=
  match x with
  | Some s => if String.eqb s EmptyString then None else Some s
  | None => None
  end.

(** [x || d] on an optional string with a string default. *)
Definition or_default (x : option string) (d : string) : string :=
  match x with
  | Some s => if String.eqb s EmptyString then d else s
  | None => d
  end.

(** [x || d] on an optional number: [0] is falsy. *)
Definition or_number (x : option Z) (d : Z) : Z :=
  match x with
  | Some n => if n =? 0 then d else n
  | None => d
  end.

(** [x || d] on an optional boolean. *)
Definition or_bool (x : option bool) (d : bool) : bool :=
  match x with
  | Some true => true
  | _ => d
  end.

(** *** Conversion to a number, up to its sign

    The client converts a value of type [any] to a number in one place, the
    test [options.headers.length > 0], which reads only whether the result is
    above zero.  The conversion is therefore modelled by the class of its
    result: [NaN], below zero, a zero, or above zero (the infinities
    included). *)

Inductive NumberClass : Type := IsNaN | Negative | Zero | Positive.

Definition is_space (c : ascii) : bool :=
  let n := nat_of_ascii c in
  ((n =? 32) || (n =? 9) || (n =? 10) || (n =? 11) || (n =? 12) || (n =? 13))%nat.

(** The white space and line terminators of more than one UTF-8 byte:
    U+00A0; U+1680, U+2000 to U+200A, U+2028, U+2029, U+202F, U+205F, U+3000
    and U+FEFF. *)
Definition is_space2 (c1 c2 : ascii) : bool :=
  ((nat_of_ascii c1 =? 194) && (nat_of_ascii c2 =? 160))%nat.

Definition is_space3 (c1 c2 c3 : ascii) : bool :=
  let a := nat_of_ascii c1 in
  let b := nat_of_ascii c2 in
  let c := nat_of_ascii c3 in
  (((a =? 225) && (b =? 154) && (c =? 128))
   || ((a =? 226) && (b =? 128)
       && (((128 <=? c) && (c <=? 138)) || (c =? 168) || (c =? 169) || (c =? 175)))
   || ((a =? 226) && (b =? 129) && (c =? 159))
   || ((a =? 227) && (b =? 128) && (c =? 128))
   || ((a =? 239) && (b =? 187) && (c =? 191)))%nat.

Fixpoint trim_left (s : string) : string :=
  match s with
  | EmptyString => EmptyString
  | String c1 r1 =>
      if is_space c1 then trim_left r1
      else
        match r1 with
        | EmptyString => s
        | String c2 r2 =>
            if is_space2 c1 c2 then trim_left r2
            else
              match r2 with
              | EmptyString => s
              | String c3 r3 => if is_space3 c1 c2 c3 then trim_left r3 else s
              end
        end
  end.

(** Dropping trailing white space: the string is cut where all that follows
    is white space. *)
Fixpoint trim_right (s : string) : string :=
  match s with
  | EmptyString => EmptyString
  | String c rest =>
      match trim_left s with
      | EmptyString => EmptyString
      | _ => String c (trim_right rest)
      end
  end.

Definition trim (s : string) : string := trim_right (trim_left s).

Definition digit_value (c : ascii) : option Z :=
  let n := nat_of_ascii c in
  if ((48 <=? n) && (n <=? 57))%nat then Some (Z.of_nat n - 48) else None.

(** The longest prefix of decimal digits: its value continuing [acc], the
    number of digits read continuing [n], and what follows. *)
Fixpoint take_digits (acc : Z) (n : nat) (s : string) : Z * nat * string :=
  match s with
  | EmptyString => (acc, n, EmptyString)
  | String c rest =>
      match digit_value c with
      | Some d => take_digits (10 * acc + d) (S n) rest
      | None => (acc, n, s)
      end
  end.

(** The digits of a literal in radix 2, 8 or 16: [None] when the string is
    empty or holds another character, else whether a digit is not zero. *)
Definition radix_digit (radix : nat) (c : ascii) : option nat :=
  let n := nat_of_ascii c in
  let d := if ((48 <=? n) && (n <=? 57))%nat then Some (n - 48)%nat
           else if ((97 <=? n) && (n <=? 102))%nat then Some (n - 87)%nat
           else if ((65 <=? n) && (n <=? 70))%nat then Some (n - 55)%nat
           else None in
  match d with
  | Some v => if (v <? radix)%nat then Some v else None
  | None => None
  end.

Fixpoint radix_digits (radix : nat) (seen nonzero : bool) (s : string)
  : option bool :=
  match s with
  | EmptyString => if seen then Some nonzero else None
  | String c rest =>
      match radix_digit radix c with
      | Some v => radix_digits radix true (nonzero || negb (v =? 0)%nat) rest
      | None => None
      end
  end.

Definition radix_literal (radix : nat) (digits : string) : NumberClass :=
  match radix_digits radix false false digits with
  | Some true => Positive
  | Some false => Zero
  | None => IsNaN
  end.

(** The exponent part that may end a decimal literal: [None] when what
    follows the mantissa is not an exponent part up to the end. *)
Definition exponent_part (s : string) : option Z :=
  match s with
  | EmptyString => Some 0
  | String c rest =>
      if Ascii.eqb c "e" || Ascii.eqb c "E" then
        let '(negative, digits) :=
          match rest with
          | String "-" r => (true, r)
          | String "+" r => (false, r)
          | _ => (false, rest)
          end in
        match take_digits 0 0 digits with
        | (e, S _, EmptyString) => Some (if negative then - e else e)
        | _ => None
        end
      else None
  end.

(** Whether the mathematical value [m * 10 ^ k] rounds to a Number that is
    not zero: it must exceed half the least positive Number, [2 ^ -1075]. *)
Definition rounds_to_nonzero (m k : Z) : bool :=
  if m <=? 0 then false
  else if 0 <=? k then true
  else 10 ^ (- k) <? m * 2 ^ 1075.

(** [StrUnsignedDecimalLiteral]: [Infinity], or digits with an optional
    fraction and an optional exponent, at least one digit in the
    mantissa.  [Some true] is a value that is not zero. *)
Definition unsigned_decimal (s : string) : option bool :=
  if String.eqb s "Infinity" then Some true
  else
    let '(i, ni, r1) := take_digits 0 0 s in
    let '(m, nf, r2) :=
      match r1 with
      | String "." r => take_digits i 0 r
      | _ => (i, 0%nat, r1)
      end in
    if ((ni =? 0) && (nf =? 0))%nat then None
    else
      match exponent_part r2 with
      | Some e => Some (rounds_to_nonzero m (e - Z.of_nat nf))
      | None => None
      end.

Definition signed_decimal (negative : bool) (s : string) : NumberClass :=
  match unsigned_decimal s with
  | Some true => if negative then Negative else Positive
  | Some false => Zero
  | None => IsNaN
  end.

(** [StringToNumber], up to the class of the result: white space is dropped
    on both sides, the empty string is zero, a literal in radix 16, 8 or 2
    takes no sign, a decimal literal takes an optional one, and every other
    string is [NaN]. *)
Definition StringToNumber (s : string) : NumberClass :=
  match trim s with
  | EmptyString => Zero
  | String "0" (String c rest) =>
      if Ascii.eqb c "x" || Ascii.eqb c "X" then radix_literal 16 rest
      else if Ascii.eqb c "o" || Ascii.eqb c "O" then radix_literal 8 rest
      else if Ascii.eqb c "b" || Ascii.eqb c "B" then radix_literal 2 rest
      else signed_decimal false (String "0" (String c rest))
  | String "-" rest => signed_decimal true rest
  | String "+" rest => signed_decimal false rest
  | t => signed_decimal false t
  end.

(** [ToNumber], up to the class of the result; objects and arrays go through
    [ToString]. *)
Definition ToNumber (v : JsValue) : NumberClass :=
  match v with
  | JsUndefined => IsNaN
  | JsNull => Zero
  | JsBool true => Positive
  | JsBool false => Zero
  | JsNumber n => if n <? 0 then Negative else if n =? 0 then Zero else Positive
  | JsString s => StringToNumber s
  | JsArray _ | JsObject _ => StringToNumber (ToString v)
  end.

(** [v > 0]: false whenever [v] converts to [NaN]. *)
Definition gt_zero (v : JsValue) : bool :=
  match ToNumber v with
  | Positive => true
  | _ => false
  end.

(** [Object.assign({}, src)] with a source that may be [undefined]. *)
Definition Object_assign_undefined {K V} `{Countable K} (src : option (gmap K V))
  : gmap K V :=
  default ∅ src.

(** *** Percent encoding *)

Definition hex_digit (n : nat) : ascii :=
  if (n <? 10)%nat then ascii_of_nat (48 + n) else ascii_of_nat (55 + n).

Definition percent (c : ascii) : string :=
  let n := nat_of_ascii c in
  String "%" (String (hex_digit (n / 16)) (String (hex_digit (n mod 16)) EmptyString)).

Definition is_alnum (c : ascii) : bool :=
  let n := nat_of_ascii c in
  (((48 <=? n) && (n <=? 57)) || ((65 <=? n) && (n <=? 90))
   || ((97 <=? n) && (n <=? 122)))%nat.

Definition is_lower (c : ascii) : bool :=
  let n := nat_of_ascii c in ((97 <=? n) && (n <=? 122))%nat.

Definition is_digit (c : ascii) : bool :=
  let n := nat_of_ascii c in ((48 <=? n) && (n <=? 57))%nat.

Definition mem_ascii (c : ascii) (set : string) : bool :=
  existsb (Ascii.eqb c) (list_ascii_of_string set).

(** The characters [encodeURIComponent] leaves alone. *)
Definition uri_unreserved (c : ascii) : bool :=
  is_alnum c || mem_ascii c "-_.!~*'()".

Fixpoint encode_with (keep : ascii -> bool) (s : string) : string :=
  match s with
  | EmptyString => EmptyString
  | String c rest =>
      (if keep c then String c EmptyString else percent c) ++ encode_with keep rest
  end.

(** [encodeURIComponent]: every byte of the UTF-8 form that is not
    unreserved becomes [%XX]. *)
Definition encodeURIComponent (s : string) : string :=
  encode_with uri_unreserved s.

(** *** JSON.stringify *)

Definition json_escape_char (c : ascii) : string :=
  let n := nat_of_ascii c in
  if (n =? 34)%nat then String "\" quote
  else if (n =? 92)%nat then "\\"
  else if (n =? 8)%nat then "\b"
  else if (n =? 9)%nat then "\t"
  else if (n =? 10)%nat then "\n"
  else if (n =? 12)%nat then "\f"
  else if (n =? 13)%nat then "\r"
  else if (n <? 32)%nat then
    "\u00" ++ String (ascii_of_nat (nat_of_ascii (hex_digit (n / 16)) + (if (10 <=? n / 16)%nat then 32 else 0)))
               (String (ascii_of_nat (nat_of_ascii (hex_digit (n mod 16)) + (if (10 <=? n mod 16)%nat then 32 else 0)))
                  EmptyString)
  else String c EmptyString.

Fixpoint json_escape (s : string) : string :=
  match s with
  | EmptyString => EmptyString
  | String c rest => json_escape_char c ++ json_escape rest
  end.

Definition json_quote (s : string) : string := quote ++ json_escape s ++ quote.

(** [JSON.stringify v]; [None] is the [undefined] it returns for
    [undefined].  Inside an array [undefined] prints as [null]; inside an
    object an [undefined] property is left out. *)
Fixpoint JSON_stringify (v : JsValue) : option string :=
  match v with
  | JsUndefined => None
  | JsNull => Some "null"
  | JsBool true => Some "true"
  | JsBool false => Some "false"
  | JsNumber n => Some (NumberToString n)
  | JsString s => Some (json_quote s)
  | JsArray items =>
      Some ("[" ++ join "," (map (fun x => default "null" (JSON_stringify x)) items) ++ "]")
  | JsObject fields =>
      Some ("{" ++ join ","
              (omap (fun kv => (fun t => json_quote (fst kv) ++ ":" ++ t) <$> JSON_stringify (snd kv))
                 fields) ++ "}")
  end.

(** The value [JSON.stringify] hands back, as a JavaScript value. *)
Definition JSON_stringify_value (v : JsValue) : JsValue :=
  match JSON_stringify v with
  | Some s => JsString s
  | None => JsUndefined
  end.

(** *** Objects with ordered properties *)

Fixpoint field_lookup (key : string) (fields : list (string * JsValue))
  : option JsValue :=
  match fields with
  | [] => None
  | (k, v) :: rest => if String.eqb k key then Some v else field_lookup key rest
  end.

(** [target[key] = value]: an existing property keeps its place, a new one
    goes to the end. *)
Fixpoint field_set (key : string) (value : JsValue)
    (target : list (string * JsValue)) : list (string * JsValue) :=
  match target with
  | [] => [(key, value)]
  | (k, v) :: rest =>
      if String.eqb k key then (k, value) :: rest
      else (k, v) :: field_set key value rest
  end.

(** [Object.assign(target, source)] on ordered objects. *)
Definition assign_fields (target source : list (string * JsValue))
  : list (string * JsValue) :=
  foldl (fun acc kv => field_set (fst kv) (snd kv) acc) target source.

End Js.

(** ** The [query-string] package: [stringify] with its default options

    Keys are visited in sorted order (byte order here, which is the code-unit
    order of JavaScript on ASCII keys); an [undefined] value drops the key, a
    [null] value prints the bare key, an array prints one [key=value] pair
    per element, and every key and value goes through strict URI encoding
    ([encodeURIComponent], then [!'()*] escaped as well). *)

Module QueryString.
Import Js.

Definition strictUriEncode (s : string) : string :=
  encode_with (fun c => is_alnum c || mem_ascii c "-_.~") s.

Definition encode (v : JsValue) : string := strictUriEncode (ToString v).

Definition formatter (key : string) (value : JsValue) : string :=
  match value with
  | JsNull => strictUriEncode key
  | _ => strictUriEncode key ++ "=" ++ encode value
  end.

Definition stringify_entry (kv : string * JsValue) : string :=
  let (key, val) := kv in
  match val with
  | JsUndefined => EmptyString
  | JsNull => strictUriEncode key
  | JsArray items =>
      join "&"
        (omap (fun val2 => match val2 with
                           | JsUndefined => None
                           | _ => Some (formatter key val2)
                           end) items)
  | _ => strictUriEncode key ++ "=" ++ encode val
  end.

Definition key_le (a b : string * JsValue) : Prop := String.leb (fst a) (fst b) = true.

#[local] Instance key_le_dec a b : Decision (key_le a b).
Proof. unfold key_le. apply _. Defined.

(** [Object.keys(obj).sort()] paired with the values. *)
Definition sorted_entries (obj : gmap string JsValue) : list (string * JsValue) :=
  merge_sort key_le (map_to_list obj).

Definition nonempty (s : string) : bool := negb (String.eqb s EmptyString).

Definition stringify (obj : gmap string JsValue) : string :=
  join "&" (List.filter nonempty (map stringify_entry (sorted_entries obj))).

End QueryString.

(** ** The option types of [couchdb-options.interface.ts] *)

Module CouchDbOptions.
Import Js.

Inductive Method : Type := GET | POST | PUT | DELETE | COPY | HEAD.

Record AuthOptions : Type := mkAuth {
  username : option string;
  password : option string
}.

Module Connection.
Record t : Type := mk {
  host : option string;
  port : option Z;
  auth : option AuthOptions;
  logging : option bool;
  defaultDatabase : option string
}.
(** The default argument [{}] of the constructors. *)
Definition empty : t := mk None None None None None.
End Connection.

Module RequestOptions.
Record t : Type := mk {
  path : option string;
  uri : option string;
  postData : JsValue;
  resolveWithFullResponse : option bool;
  auth : option AuthOptions;
  json : option bool;
  statusCodes : option (gmap Z string);
  headers : option (gmap string JsValue);
  body : JsValue;
  method : option Method
}.
(** The default argument [{}] of [request]. *)
Definition empty : t :=
  mk None None JsUndefined None None None None None JsUndefined None.

Definition set_method (m : option Method) (o : t) : t :=
  mk (path o) (uri o) (postData o) (resolveWithFullResponse o) (auth o) (json o)
     (statusCodes o) (headers o) (body o) m.
Definition set_uri (u : option string) (o : t) : t :=
  mk (path o) u (postData o) (resolveWithFullResponse o) (auth o) (json o)
     (statusCodes o) (headers o) (body o) (method o).
Definition set_body (b : JsValue) (o : t) : t :=
  mk (path o) (uri o) (postData o) (resolveWithFullResponse o) (auth o) (json o)
     (statusCodes o) (headers o) b (method o).
Definition set_headers (h : option (gmap string JsValue)) (o : t) : t :=
  mk (path o) (uri o) (postData o) (resolveWithFullResponse o) (auth o) (json o)
     (statusCodes o) h (body o) (method o).
End RequestOptions.

End CouchDbOptions.

(** ** Promises, the clock and the HTTP transport *)

Module Runtime.
Import Js CouchDbOptions.

(** The record [request] passes to [console.info]. *)
Record LogRecord : Type := mkLog {
  log_statusCode : Z;
  log_message : string;
  log_body : JsValue;
  log_duration : Z
}.

(** The object [request] rejects with. *)
Record NormalizedError : Type := mkNormalized {
  error : JsError;
  status : Z;
  message : string;
  duration : Z
}.

(** What a promise of the client can be rejected with: the string of a local
    check, the normalized error of the gateway, or an exception object as it
    was thrown. *)
Inductive Reason : Type :=
| ReasonString (s : string)
| ReasonNormalized (n : NormalizedError)
| ReasonRaw (e : JsError).

Inductive Settlement : Type :=
| Fulfilled (v : JsValue)
| Rejected (r : Reason).

(** What the body of an executor or of a promise callback does. *)
Inductive Action : Type :=
| ConsoleInfo (r : LogRecord)
| CallResolve (v : JsValue)
| CallReject (r : Reason).

Definition settlement_of (a : Action) : option Settlement :=
  match a with
  | CallResolve v => Some (Fulfilled v)
  | CallReject r => Some (Rejected r)
  | ConsoleInfo _ => None
  end.

Definition log_of (a : Action) : option LogRecord :=
  match a with
  | ConsoleInfo r => Some r
  | _ => None
  end.

(** A promise as its holder sees it: the state when the call that made it
    returns, the state once the transport has completed and every callback
    has run ([None] is a promise left pending), and how many times its
    [resolve] and [reject] functions ran.  The first run decides the state;
    later runs are ignored by the promise but still counted here. *)
Record Promise : Type := mkPromise {
  on_return : option Settlement;
  outcome : option Settlement;
  settle_calls : nat
}.

(** [new Promise(executor)]: [during] are the actions of the executor body
    itself, [threw] the exception it ended with (the constructor then
    rejects the promise with it), [later] the actions of the callbacks the
    executor registered, which run after the call has returned. *)
Definition new_Promise (during : list Action) (threw : option JsError)
    (later : list Action) : Promise :=
  let first := (omap settlement_of during
                ++ match threw with
                   | Some e => [Rejected (ReasonRaw e)]
                   | None => []
                   end)%list in
  let all := (first ++ omap settlement_of later)%list in
  {| on_return := head first; outcome := head all; settle_calls := length all |}.

(** [Promise.reject(reason)]. *)
Definition Promise_reject (reason : string) : Promise :=
  {| on_return := Some (Rejected (ReasonString reason));
     outcome := Some (Rejected (ReasonString reason));
     settle_calls := 1 |}.

(** The full response request-promise resolves with. *)
Module Response.
Record t : Type := mk {
  statusCode : Z;
  body : JsValue
}.
End Response.

(** How a call [request(requestOptions)] of the transport ends: it throws
    before returning a promise, or its promise is fulfilled with a response,
    or rejected with an error object, [elapsed] milliseconds later.
    request-promise rejects with error objects only ([RequestError],
    [StatusCodeError], [TransformError]), never with [null] or
    [undefined]. *)
Inductive TransportOutcome : Type :=
| TransportThrows (e : JsError)
| TransportFulfils (elapsed : Z) (response : Response.t)
| TransportRejects (elapsed : Z) (e : JsError).

(** The environment of one call: the transport and the reading of
    [Date.now()] when the call starts. *)
Record Env : Type := mkEnv {
  transport : RequestOptions.t -> TransportOutcome;
  now : Z
}.

(** How a method call ends for its caller. *)
Inductive Completion : Type :=
| Throws (e : JsError)
| Returns (p : Promise).

(** A method call: how it ends, the requests handed to the transport, and
    the records written to the console. *)
Record Call : Type := mkCall {
  completion : Completion;
  sent : list RequestOptions.t;
  console : list LogRecord
}.

Definition promise_of (c : Call) : option Promise :=
  match completion c with
  | Returns p => Some p
  | Throws _ => None
  end.

(** The state of the returned promise when the call returns. *)
Definition state_on_return (c : Call) : option Settlement :=
  p ← promise_of c; on_return p.

(** The state of the returned promise in the end. *)
Definition final_state (c : Call) : option Settlement :=
  p ← promise_of c; outcome p.

(** [return Promise.reject(reason)] without touching the transport. *)
Definition reject_now (reason : string) : Call :=
  {| completion := Returns (Promise_reject reason); sent := []; console := [] |}.

(** A method that throws before it returns. *)
Definition throw_now (e : JsError) : Call :=
  {| completion := Throws e; sent := []; console := [] |}.

(** *** request-promise over a remote server

    With [resolveWithFullResponse: true] and the default [simple: true],
    request-promise fulfils with the full response when the status code,
    printed in decimal, starts with [2], rejects with a [StatusCodeError]
    carrying [statusCode] for every other reply, and rejects with a
    [RequestError] without [statusCode] when no reply arrives. *)

Inductive RemoteReply : Type :=
| Replies (elapsed : Z) (status : Z) (payload : JsValue)
| Unreachable (elapsed : Z) (cause : string).

Definition is2xx (status : Z) : bool :=
  match NumberToString status with
  | String "2" _ => true
  | _ => false
  end.

Definition StatusCodeError (status : Z) (payload : JsValue) : JsError :=
  {| errName := "StatusCodeError";
     errMessage := NumberToString status ++ " - "
                   ++ default "undefined" (JSON_stringify payload);
     errStatusCode := Some status |}.

Definition RequestError (cause : string) : JsError :=
  {| errName := "RequestError"; errMessage := cause; errStatusCode := None |}.

Definition request_promise (remote : RequestOptions.t -> RemoteReply)
    (requestOptions : RequestOptions.t) : TransportOutcome :=
  match remote requestOptions with
  | Replies elapsed status payload =>
      if is2xx status
      then TransportFulfils elapsed (Response.mk status payload)
      else TransportRejects elapsed (StatusCodeError status payload)
  | Unreachable elapsed cause => TransportRejects elapsed (RequestError cause)
  end.

End Runtime.

(** ** Class [CouchDb] of [src/couchdb.ts] *)

Module CouchDb.
Import Js CouchDbOptions Runtime.

Record t : Type := mk {
  host : string;
  port : Z;
  auth : option AuthOptions;
  logging : bool;
  defaultDatabase : option string
}.

Definition constructor (options : option Connection.t) : t :=
  let options := default Connection.empty options in
  {| host := or_default (Connection.host options) "http://127.0.0.1";
     port := or_number (Connection.port options) 5984;
     auth := Connection.auth options;
     logging := or_bool (Connection.logging options) false;
     defaultDatabase := Connection.defaultDatabase options |}.

(** [Object.keys(queryObj)] throws a [TypeError] on [undefined]. *)
Definition createQueryString (queryObj : option (gmap string JsValue))
  : JsError + string :=
  match queryObj with
  | None => inl (TypeError "Cannot convert undefined or null to object")
  | Some obj =>
      inr (if (0 <? size obj)%nat then "?" ++ QueryString.stringify obj
           else EmptyString)
  end.

Definition baseline_headers : gmap string JsValue :=
  <["user-agent" := JsString "couchdb-promises"]>
    (<["accept" := JsString "application/json"]> ∅).

Definition defaultRequestOptions (self : t) : RequestOptions.t :=
  {| RequestOptions.path := None;
     RequestOptions.uri := Some (host self ++ ":" ++ NumberToString (port self));
     RequestOptions.postData := JsUndefined;
     RequestOptions.resolveWithFullResponse := Some true;
     RequestOptions.auth := auth self;
     RequestOptions.json := Some true;
     RequestOptions.statusCodes := None;
     RequestOptions.headers := Some baseline_headers;
     RequestOptions.body := JsUndefined;
     RequestOptions.method := Some GET |}.

(** [options.headers && options.headers.length > 0]: a headers object passes
    only if it has a property named [length] whose value exceeds zero. *)
Definition headers_pass (headers : option (gmap string JsValue)) : bool :=
  match headers with
  | Some h => gt_zero (default JsUndefined (h !! "length"))
  | None => false
  end.

(** [Object.assign({}, a, b)]: the properties of [b] win. *)
Definition Object_assign {K V} `{Countable K} (a b : gmap K V) : gmap K V := b ∪ a.

Section WithStatusCodes.

(** Node's table [http.STATUS_CODES]. *)
Variable STATUS_CODES : gmap Z string.

Definition statusCode (statusCodes : option (gmap Z string)) (status : option Z)
  : string :=
  let codes := Object_assign STATUS_CODES (default ∅ statusCodes) in
  or_default (status ≫= (fun s => codes !! s)) "unknown status".

Definition request (self : t) (options : RequestOptions.t) (env : Env) : Call :=
  let startTime := now env in
  let requestOptions := defaultRequestOptions self in
  let requestOptions :=
    RequestOptions.set_method
      (match RequestOptions.method options with
       | Some m => Some m
       | None => RequestOptions.method requestOptions
       end) requestOptions in
  let requestOptions :=
    RequestOptions.set_uri
      (Some (interpolate (RequestOptions.uri requestOptions)
             ++ "/" ++ interpolate (RequestOptions.path options))) requestOptions in
  let requestOptions :=
    RequestOptions.set_body (RequestOptions.postData options) requestOptions in
  let requestOptions :=
    if headers_pass (RequestOptions.headers options)
    then RequestOptions.set_headers
           (Some (Object_assign
                    (default ∅ (RequestOptions.headers requestOptions))
                    (default ∅ (RequestOptions.headers options))))
           requestOptions
    else requestOptions in
  let '(threw, later) :=
    match transport env requestOptions with
    | TransportThrows e => (Some e, [])
    | TransportFulfils elapsed response =>
        (None,
         ((if logging self
           then [ConsoleInfo
                   {| log_statusCode := Response.statusCode response;
                      log_message :=
                        statusCode (RequestOptions.statusCodes options)
                          (Some (Response.statusCode response));
                      log_body := Response.body response;
                      log_duration := (now env + elapsed) - startTime |}]
           else []) ++ [CallResolve (Response.body response)])%list)
    | TransportRejects elapsed error =>
        (None,
         [CallReject
            (ReasonNormalized
               {| error := error;
                  status := or_number (errStatusCode error) 500;
                  message :=
                    statusCode (RequestOptions.statusCodes options)
                      (errStatusCode error);
                  duration := (now env + elapsed) - startTime |})])
    end in
  {| completion := Returns (new_Promise [] threw later);
     sent := [requestOptions];
     console := omap log_of later |}.

(** An object literal passed to [request]: the properties a method sets. *)
Definition descriptor (path : option string) (method : option Method)
    (postData : JsValue) (headers : option (gmap string JsValue))
    (statusCodes : list (Z * string)) : RequestOptions.t :=
  {| RequestOptions.path := path;
     RequestOptions.uri := None;
     RequestOptions.postData := postData;
     RequestOptions.resolveWithFullResponse := None;
     RequestOptions.auth := None;
     RequestOptions.json := None;
     RequestOptions.statusCodes := Some (list_to_map statusCodes);
     RequestOptions.headers := headers;
     RequestOptions.body := JsUndefined;
     RequestOptions.method := method |}.

Definition NO_DB : string := "No DB specified. Set defaultDatabase or specify one".

Definition INVALID_DB_NAME : string :=
  "Invalid DB Name: http://docs.couchdb.org/en/latest/api/database/common.html#put--db".

(** The opening lines of every database-scoped method:
    [dbName = dbName || this.defaultDatabase;
     if (!dbName) return Promise.reject('No DB specified...');]
    followed by the rest of the method, [k], on the resolved name. *)
Definition with_db (self : t) (dbName : option string)
    (k : string -> Env -> Call) (env : Env) : Call :=
  match truthy_string (or_string dbName (defaultDatabase self)) with
  | Some dbName => k dbName env
  | None => reject_now NO_DB
  end.

(** [dbName.match('^[a-z][a-z0-9_$()+/-]*$')]: a lower-case letter, then any
    number of lower-case letters, digits and [_$()+/-], up to the end. *)
Definition match_db_name (dbName : string) : bool :=
  match dbName with
  | String c rest =>
      is_lower c
      && forallb (fun d => is_lower d || is_digit d || mem_ascii d "_$()+/-")
           (list_ascii_of_string rest)
  | EmptyString => false
  end.

(** The wrapper of the existence checks:
    [new Promise((resolve, reject) =>
       inner.then(_ => resolve(true))
            .catch(error => error && error.error && error.error.statusCode === 404
                            ? resolve(false) : reject(error)))]. *)
Definition is_404 (reason : Reason) : bool :=
  match reason with
  | ReasonNormalized n =>
      match errStatusCode (error n) with
      | Some s => s =? 404
      | None => false
      end
  | ReasonString _ | ReasonRaw _ => false
  end.

Definition exists_check (inner : Call) : Call :=
  match completion inner with
  | Throws e =>
      {| completion := Returns (new_Promise [] (Some e) []);
         sent := sent inner; console := console inner |}
  | Returns p =>
      {| completion :=
           Returns
             (new_Promise [] None
                match outcome p with
                | Some (Fulfilled _) => [CallResolve (JsBool true)]
                | Some (Rejected reason) =>
                    if is_404 reason then [CallResolve (JsBool false)]
                    else [CallReject reason]
                | None => []
                end);
         sent := sent inner; console := console inner |}
  end.

Definition getInfo (self : t) : Env -> Call :=
  request self
    (descriptor None None JsUndefined None
       [(200, "OK - Request completed successfully")]).

Definition getDatabases (self : t) : Env -> Call :=
  request self
    (descriptor (Some "_all_dbs") None JsUndefined None
       [(200, "OK - Request completed successfully");
        (401, "Unauthorized - CouchDB Server Administrator privileges required")]).

Definition getDatabase (self : t) (dbName : option string) : Env -> Call :=
  with_db self dbName (fun dbName =>
    request self
      (descriptor (Some (encodeURIComponent dbName)) None JsUndefined None
         [(200, "OK - Request completed successfully");
          (401, "Unauthorized - CouchDB Server Administrator privileges required");
          (404, "Not Found – Requested database not found")])).

Definition createDatabase (self : t) (dbName : option string) : Env -> Call :=
  with_db self dbName (fun dbName env =>
    if negb (match_db_name dbName) then reject_now INVALID_DB_NAME
    else
      request self
        (descriptor (Some (encodeURIComponent dbName)) (Some PUT) JsUndefined None
           [(201, "Created - Database created successfully");
            (400, "Bad Request - Invalid database name");
            (401, "Unauthorized - CouchDB Server Administrator privileges required");
            (412, "Precondition Failed - Database already exists")]) env).

Definition checkDatabaseExists (self : t) (dbName : option string) : Env -> Call :=
  with_db self dbName (fun dbName env =>
    exists_check
      (request self
         (descriptor (Some (encodeURIComponent dbName)) (Some HEAD) JsUndefined None
            [(200, "OK - Database exists");
             (401, "Unauthorized - CouchDB Server Administrator privileges required");
             (404, "Not Found – Requested database not found")]) env)).

Definition deleteDatabase (self : t) (dbName : option string) : Env -> Call :=
  with_db self dbName (fun dbName =>
    request self
      (descriptor (Some (encodeURIComponent dbName)) (Some DELETE) JsUndefined None
         [(200, "OK - Database removed successfully");
          (400, "Bad Request - Invalid database name or forgotten document id by accident");
          (401, "Unauthorized - CouchDB Server Administrator privileges required");
          (404, "Not Found - Database doesn’t exist")])).

Definition updateDatabaseSecurity (self : t) (dbName : option string)
    (admins members : JsValue) : Env -> Call :=
  with_db self dbName (fun dbName =>
    request self
      (descriptor (Some (encodeURIComponent dbName ++ "/_security")) (Some PUT)
         (JsObject [("admins", admins); ("members", members)]) None
         [(200, "OK - Security updated");
          (401, "Unauthorized - CouchDB Server Administrator privileges required")])).

(** [roles: [...options.roles]] throws a [TypeError] when [roles] is
    omitted. *)
Definition createUser (self : t) (username password : string)
    (roles : option (list string)) (env : Env) : Call :=
  match roles with
  | None => throw_now (TypeError "options.roles is not iterable")
  | Some roles =>
      request self
        (descriptor (Some "_users") (Some POST)
           (JsObject
              [("_id", JsString ("org.couchdb.user:" ++ username));
               ("name", JsString username);
               ("type", JsString "user");
               ("roles", JsArray (map JsString roles));
               ("password", JsString password)]) None
           [(201, "Created New User");
            (400, "Bad Request - Invalid request");
            (401, "Unauthorized - CouchDB Server Administrator privileges required");
            (500, "Internal Server Error - Query execution error")]) env
  end.

Definition findDocuments (self : t) (dbName : option string)
    (findOptions : JsValue) : Env -> Call :=
  with_db self dbName (fun dbName =>
    request self
      (descriptor (Some (encodeURIComponent dbName ++ "/_find")) (Some POST)
         findOptions None
         [(200, "OK - Request completed successfully");
          (400, "Bad Request - Invalid request");
          (401, "Unauthorized - Read permission required");
          (500, "Internal Server Error - Query execution error")])).

Definition getDocuments (self : t) (dbName : option string)
    (options : option (gmap string JsValue)) : Env -> Call :=
  with_db self dbName (fun dbName env =>
    match createQueryString options with
    | inl e => throw_now e
    | inr queryStr =>
        request self
          (descriptor (Some (encodeURIComponent dbName ++ "/_all_docs" ++ queryStr))
             None JsUndefined None
             [(200, "OK - Request completed successfully");
              (401, "Unauthorized - Read privilege required")]) env
    end).

Definition getDocument (self : t) (docId : string) (dbName : option string)
    (options : option (gmap string JsValue)) : Env -> Call :=
  with_db self dbName (fun dbName env =>
    match createQueryString options with
    | inl e => throw_now e
    | inr queryStr =>
        request self
          (descriptor
             (Some (encodeURIComponent dbName ++ "/" ++ encodeURIComponent docId
                    ++ queryStr))
             None JsUndefined None
             [(200, "OK - Request completed successfully");
              (304, "Not Modified - Document wasn’t modified since specified revision");
              (400, "Bad Request - The format of the request or revision was invalid");
              (401, "Unauthorized - Read privilege required");
              (404, "Not Found - Document not found")]) env
    end).

Definition checkDocumentExists (self : t) (dbName : option string)
    (docId : string) : Env -> Call :=
  with_db self dbName (fun dbName env =>
    exists_check
      (request self
         (descriptor
            (Some (encodeURIComponent dbName ++ "/" ++ encodeURIComponent docId))
            (Some HEAD) JsUndefined None
            [(200, "OK - Document exists");
             (304, "Not Modified - Document wasn’t modified since specified revision");
             (401, "Unauthorized - Read privilege required");
             (404, "Not Found - Document not found")]) env)).

Definition copyDocument (self : t) (docId newDocId : string)
    (dbName : option string) : Env -> Call :=
  with_db self dbName (fun dbName env =>
    if truthy (JsString docId) && truthy (JsString newDocId) then
      request self
        (descriptor
           (Some (encodeURIComponent dbName ++ "/" ++ encodeURIComponent docId))
           (Some COPY) JsUndefined
           (Some {["Destination" := JsString newDocId]})
           [(201, "Created – Document created and stored on disk");
            (202, "Accepted – Document data accepted, but not yet stored on disk");
            (400, "Bad Request – Invalid request body or parameters");
            (401, "Unauthorized – Write privileges required");
            (404, "Not Found – Specified database or document ID doesn’t exists");
            (409, "Conflict – Document with the specified ID already exists or specified revision is not latest for target document")])
        env
    else reject_now "Invalid docId or newDocId").

Definition createDocument (self : t) (doc : JsValue) (docId : option string)
    (dbName : option string) : Env -> Call :=
  with_db self dbName (fun dbName env =>
    match truthy_string docId with
    | Some docId =>
        request self
          (descriptor
             (Some (encodeURIComponent dbName ++ "/" ++ encodeURIComponent docId))
             (Some PUT) doc
             (Some {["content-type" := JsString "application/json"]})
             [(201, "Created – Document created and stored on disk");
              (202, "Accepted – Document data accepted, but not yet stored on disk");
              (400, "Bad Request – Invalid request body or parameters");
              (401, "Unauthorized – Write privileges required");
              (404, "Not Found – Specified database or document ID doesn’t exists");
              (409, "Conflict – Document with the specified ID already exists or specified revision is not latest for target document")])
          env
    | None =>
        request self
          (descriptor (Some (encodeURIComponent dbName)) (Some POST) doc None
             [(201, "Created – Document created and stored on disk");
              (202, "Accepted – Document data accepted, but not yet stored on disk");
              (400, "Bad Request – Invalid database name");
              (401, "Unauthorized – Write privileges required");
              (404, "Not Found – Database doesn’t exists");
              (409, "Conflict – A Conflicting Document with same ID already exists")])
          env
    end).

Definition createDocuments (self : t) (docs : list JsValue)
    (dbName : option string) : Env -> Call :=
  with_db self dbName (fun dbName =>
    request self
      (descriptor (Some (encodeURIComponent dbName ++ "/_bulk_docs")) (Some POST)
         (JsObject [("docs", JsArray docs)]) None
         [(201, "Created – Document(s) have been created or updated");
          (400, "Bad Request – The request provided invalid JSON data");
          (417, "Expectation Failed – Occurs when all_or_nothing option set as true and at least one document was rejected by validation function");
          (500, "Internal Server Error – Malformed data provided, while it’s still valid JSON")])).

Definition deleteDocument (self : t) (dbName : option string)
    (docId rev : string) : Env -> Call :=
  with_db self dbName (fun dbName =>
    request self
      (descriptor
         (Some (encodeURIComponent dbName ++ "/" ++ encodeURIComponent docId
                ++ "?rev=" ++ rev))
         (Some DELETE) JsUndefined None
         [(200, "OK - Document successfully removed");
          (202, "Accepted - Request was accepted, but changes are not yet stored on disk");
          (400, "Bad Request - Invalid request body or parameters");
          (401, "Unauthorized - Write privilege required");
          (404, "Not Found - Specified database or document ID doesn't exist");
          (409, "Conflict - Specified revision is not the latest for target document")])).

Definition getUuids (self : t) (count : option Z) : Env -> Call :=
  let count := default 1 count in
  request self
    (descriptor (Some ("_uuids?count=" ++ NumberToString count)) None JsUndefined None
       [(200, "OK - Request completed successfully");
        (403, "Forbidden – Requested more UUIDs than is allowed to retrieve")]).

Definition getDesignDocument (self : t) (dbName : option string) (docId : string)
    (options : option (gmap string JsValue)) : Env -> Call :=
  with_db self dbName (fun dbName env =>
    match createQueryString options with
    | inl e => throw_now e
    | inr queryStr =>
        request self
          (descriptor
             (Some (encodeURIComponent dbName ++ "/_design/"
                    ++ encodeURIComponent docId ++ queryStr))
             None JsUndefined None
             [(200, "OK - Request completed successfully");
              (304, "Not Modified - Document wasn’t modified since specified revision");
              (400, "Bad Request - The format of the request or revision was invalid");
              (401, "Unauthorized - Read privilege required");
              (404, "Not Found - Document not found")]) env
    end).

Definition getDesignDocumentInfo (self : t) (dbName : option string)
    (docId : string) : Env -> Call :=
  with_db self dbName (fun dbName =>
    request self
      (descriptor
         (Some (encodeURIComponent dbName ++ "/_design/"
                ++ encodeURIComponent docId ++ "/_info"))
         None JsUndefined None
         [(200, "OK - Request completed successfully")])).

Definition createDesignDocument (self : t) (dbName : option string)
    (doc : JsValue) (docId : string) : Env -> Call :=
  with_db self dbName (fun dbName =>
    request self
      (descriptor
         (Some (encodeURIComponent dbName ++ "/_design/" ++ encodeURIComponent docId))
         (Some PUT) doc None
         [(201, "Created – Document created and stored on disk");
          (202, "Accepted – Document data accepted, but not yet stored on disk");
          (400, "Bad Request – Invalid request body or parameters");
          (401, "Unauthorized – Write privileges required");
          (404, "Not Found – Specified database or document ID doesn’t exists");
          (409, "Conflict – Document with the specified ID already exists or specified revision is not latest for target document")])).

Definition deleteDesignDocument (self : t) (dbName : option string)
    (docId rev : string) : Env -> Call :=
  with_db self dbName (fun dbName =>
    request self
      (descriptor
         (Some (encodeURIComponent dbName ++ "/_design/" ++ encodeURIComponent docId
                ++ "?rev=" ++ rev))
         (Some DELETE) JsUndefined None
         [(200, "OK - Document successfully removed");
          (202, "Accepted - Request was accepted, but changes are not yet stored on disk");
          (400, "Bad Request - Invalid request body or parameters");
          (401, "Unauthorized - Write privilege required");
          (404, "Not Found - Specified database or document ID doesn't exist");
          (409, "Conflict - Specified revision is not the latest for target document")])).

Definition getDocumentView (self : t) (dbName : option string)
    (docId viewName : string) (options : option (gmap string JsValue))
  : Env -> Call :=
  with_db self dbName (fun dbName env =>
    match createQueryString options with
    | inl e => throw_now e
    | inr queryStr =>
        request self
          (descriptor
             (Some (encodeURIComponent dbName ++ "/_design/"
                    ++ encodeURIComponent docId ++ "/_view/"
                    ++ encodeURIComponent viewName ++ queryStr))
             None JsUndefined None
             [(200, "OK - Request completed successfully")]) env
    end).

Definition getIndexes (self : t) (dbName : option string) : Env -> Call :=
  with_db self dbName (fun dbName =>
    request self
      (descriptor (Some (encodeURIComponent dbName ++ "/_index")) (Some GET)
         JsUndefined None
         [(200, "OK - Success");
          (400, "Bad Request - Invalid request");
          (401, "Unauthorized - Read permission required");
          (500, "Internal Server Error - Execution error")])).

Definition createIndex (self : t) (dbName : option string) (index : JsValue)
    (name : option string) : Env -> Call :=
  with_db self dbName (fun dbName =>
    request self
      (descriptor (Some (encodeURIComponent dbName ++ "/_index")) (Some POST)
         (JsObject
            [("index", index);
             ("name", match name with
                      | Some s => JsString s
                      | None => JsUndefined
                      end)]) None
         [(200, "OK - Index created successfully or already exists");
          (400, "Bad Request - Invalid request");
          (401, "Unauthorized - Admin permission required");
          (500, "Internal Server Error - Execution error")])).

Definition deleteIndex (self : t) (dbName : option string)
    (docId indexName : string) : Env -> Call :=
  with_db self dbName (fun dbName =>
    request self
      (descriptor
         (Some (encodeURIComponent dbName ++ "/_index/" ++ encodeURIComponent docId
                ++ "/json/" ++ encodeURIComponent indexName))
         (Some DELETE) JsUndefined None
         [(200, "OK - Success");
          (400, "Bad Request - Invalid request");
          (401, "Unauthorized - Writer permission required");
          (404, "Not Found - Index not found");
          (500, "Internal Server Error - Execution error")])).

(** The public methods as data: one constructor per method, carrying its
    arguments, and [invoke] to call it. *)
Inductive Operation : Type :=
| GetInfo
| GetDatabases
| GetDatabase (dbName : option string)
| CreateDatabase (dbName : option string)
| CheckDatabaseExists (dbName : option string)
| DeleteDatabase (dbName : option string)
| UpdateDatabaseSecurity (dbName : option string) (admins members : JsValue)
| CreateUser (username password : string) (roles : option (list string))
| FindDocuments (dbName : option string) (findOptions : JsValue)
| GetDocuments (dbName : option string) (options : option (gmap string JsValue))
| GetDocument (docId : string) (dbName : option string)
    (options : option (gmap string JsValue))
| CheckDocumentExists (dbName : option string) (docId : string)
| CopyDocument (docId newDocId : string) (dbName : option string)
| CreateDocument (doc : JsValue) (docId : option string) (dbName : option string)
| CreateDocuments (docs : list JsValue) (dbName : option string)
| DeleteDocument (dbName : option string) (docId rev : string)
| GetUuids (count : option Z)
| GetDesignDocument (dbName : option string) (docId : string)
    (options : option (gmap string JsValue))
| GetDesignDocumentInfo (dbName : option string) (docId : string)
| CreateDesignDocument (dbName : option string) (doc : JsValue) (docId : string)
| DeleteDesignDocument (dbName : option string) (docId rev : string)
| GetDocumentView (dbName : option string) (docId viewName : string)
    (options : option (gmap string JsValue))
| GetIndexes (dbName : option string)
| CreateIndex (dbName : option string) (index : JsValue) (name : option string)
| DeleteIndex (dbName : option string) (docId indexName : string).

Definition invoke (self : t) (op : Operation) : Env -> Call :=
  match op with
  | GetInfo => getInfo self
  | GetDatabases => getDatabases self
  | GetDatabase dbName => getDatabase self dbName
  | CreateDatabase dbName => createDatabase self dbName
  | CheckDatabaseExists dbName => checkDatabaseExists self dbName
  | DeleteDatabase dbName => deleteDatabase self dbName
  | UpdateDatabaseSecurity dbName admins members =>
      updateDatabaseSecurity self dbName admins members
  | CreateUser username password roles => createUser self username password roles
  | FindDocuments dbName findOptions => findDocuments self dbName findOptions
  | GetDocuments dbName options => getDocuments self dbName options
  | GetDocument docId dbName options => getDocument self docId dbName options
  | CheckDocumentExists dbName docId => checkDocumentExists self dbName docId
  | CopyDocument docId newDocId dbName => copyDocument self docId newDocId dbName
  | CreateDocument doc docId dbName => createDocument self doc docId dbName
  | CreateDocuments docs dbName => createDocuments self docs dbName
  | DeleteDocument dbName docId rev => deleteDocument self dbName docId rev
  | GetUuids count => getUuids self count
  | GetDesignDocument dbName docId options =>
      getDesignDocument self dbName docId options
  | GetDesignDocumentInfo dbName docId => getDesignDocumentInfo self dbName docId
  | CreateDesignDocument dbName doc docId =>
      createDesignDocument self dbName doc docId
  | DeleteDesignDocument dbName docId rev =>
      deleteDesignDocument self dbName docId rev
  | GetDocumentView dbName docId viewName options =>
      getDocumentView self dbName docId viewName options
  | GetIndexes dbName => getIndexes self dbName
  | CreateIndex dbName index name => createIndex self dbName index name
  | DeleteIndex dbName docId indexName => deleteIndex self dbName docId indexName
  end.

End WithStatusCodes.

(** The database-name argument of a call: [Some arg] for the methods that
    work on a database, [None] for the server-level ones. *)
Definition dbName_argument (op : Operation) : option (option string) :=
  match op with
  | GetInfo | GetDatabases | CreateUser _ _ _ | GetUuids _ => None
  | GetDatabase dbName | CreateDatabase dbName | CheckDatabaseExists dbName
  | DeleteDatabase dbName | UpdateDatabaseSecurity dbName _ _
  | FindDocuments dbName _ | GetDocuments dbName _ | GetDocument _ dbName _
  | CheckDocumentExists dbName _ | CopyDocument _ _ dbName
  | CreateDocument _ _ dbName | CreateDocuments _ dbName
  | DeleteDocument dbName _ _ | GetDesignDocument dbName _ _
  | GetDesignDocumentInfo dbName _ | CreateDesignDocument dbName _ _
  | DeleteDesignDocument dbName _ _ | GetDocumentView dbName _ _ _
  | GetIndexes dbName | CreateIndex dbName _ _ | DeleteIndex dbName _ _ =>
      Some dbName
  end.

(** The query-options argument of the read methods that take one. *)
Definition query_options_argument (op : Operation)
  : option (option (gmap string JsValue)) :=
  match op with
  | GetDocuments _ options | GetDocument _ _ options
  | GetDesignDocument _ _ options | GetDocumentView _ _ _ options => Some options
  | _ => None
  end.

Definition is_exists_check (op : Operation) : bool :=
  match op with
  | CheckDatabaseExists _ | CheckDocumentExists _ _ => true
  | _ => false
  end.

(** The same call with another database-name argument; the server-level
    calls, which take none, are left as they are. *)
Definition set_dbName (dbName : option string) (op : Operation) : Operation :=
  match op with
  | GetInfo | GetDatabases | CreateUser _ _ _ | GetUuids _ => op
  | GetDatabase _ => GetDatabase dbName
  | CreateDatabase _ => CreateDatabase dbName
  | CheckDatabaseExists _ => CheckDatabaseExists dbName
  | DeleteDatabase _ => DeleteDatabase dbName
  | UpdateDatabaseSecurity _ admins members =>
      UpdateDatabaseSecurity dbName admins members
  | FindDocuments _ findOptions => FindDocuments dbName findOptions
  | GetDocuments _ options => GetDocuments dbName options
  | GetDocument docId _ options => GetDocument docId dbName options
  | CheckDocumentExists _ docId => CheckDocumentExists dbName docId
  | CopyDocument docId newDocId _ => CopyDocument docId newDocId dbName
  | CreateDocument doc docId _ => CreateDocument doc docId dbName
  | CreateDocuments docs _ => CreateDocuments docs dbName
  | DeleteDocument _ docId rev => DeleteDocument dbName docId rev
  | GetDesignDocument _ docId options => GetDesignDocument dbName docId options
  | GetDesignDocumentInfo _ docId => GetDesignDocumentInfo dbName docId
  | CreateDesignDocument _ doc docId => CreateDesignDocument dbName doc docId
  | DeleteDesignDocument _ docId rev => DeleteDesignDocument dbName docId rev
  | GetDocumentView _ docId viewName options =>
      GetDocumentView dbName docId viewName options
  | GetIndexes _ => GetIndexes dbName
  | CreateIndex _ index name => CreateIndex dbName index name
  | DeleteIndex _ docId indexName => DeleteIndex dbName docId indexName
  end.

(** The same client with another default database. *)
Definition set_defaultDatabase (d : option string) (self : t) : t :=
  mk (host self) (port self) (auth self) (logging self) d.

End CouchDb.

(** ** Class [CouchDBAdmin], the earlier client with the same gateway *)

Module CouchDBAdmin.
Import Js CouchDbOptions Runtime.

Record t : Type := mk {
  host : string;
  port : Z;
  auth : option AuthOptions;
  logging : bool
}.

Definition QUERY_KEYS_JSON : list string := ["key"; "keys"; "startkey"; "endkey"].

(** [this.port = options.port = 5984] assigns [5984] to [options.port] and
    then to [this.port]; the constructor is returned together with the
    options object as it leaves it. *)
Definition constructor (options : option Connection.t) : t * Connection.t :=
  let options := default Connection.empty options in
  let options' :=
    Connection.mk (Connection.host options) (Some 5984) (Connection.auth options)
      (Connection.logging options) (Connection.defaultDatabase options) in
  ({| host := or_default (Connection.host options) "http://127.0.0.1";
      port := 5984;
      auth := Connection.auth options';
      logging := or_bool (Connection.logging options') false |},
   options').

(** One turn of [QUERY_KEYS_JSON.forEach]:
    [if (key in obj) obj[key] = JSON.stringify(obj[key])]. *)
Definition stringify_key (obj : gmap string JsValue) (key : string)
  : gmap string JsValue :=
  match obj !! key with
  | Some v => <[key := JSON_stringify_value v]> obj
  | None => obj
  end.

Definition createQueryString (queryObj : option (gmap string JsValue)) : string :=
  let obj := Object_assign_undefined queryObj in
  let obj := foldl stringify_key obj QUERY_KEYS_JSON in
  if (0 <? size obj)%nat then "?" ++ QueryString.stringify obj else EmptyString.

Definition defaultRequestOptions (self : t) : RequestOptions.t :=
  {| RequestOptions.path := None;
     RequestOptions.uri := Some (host self ++ ":" ++ NumberToString (port self));
     RequestOptions.postData := JsUndefined;
     RequestOptions.resolveWithFullResponse := Some true;
     RequestOptions.auth := auth self;
     RequestOptions.json := Some true;
     RequestOptions.statusCodes := None;
     RequestOptions.headers := Some CouchDb.baseline_headers;
     RequestOptions.body := JsUndefined;
     RequestOptions.method := Some GET |}.

Section WithStatusCodes.

Variable STATUS_CODES : gmap Z string.

Definition statusCode (statusCodes : option (gmap Z string)) (status : option Z)
  : string :=
  let codes := CouchDb.Object_assign STATUS_CODES (default ∅ statusCodes) in
  or_default (status ≫= (fun s => codes !! s)) "unknown status".

Definition request (self : t) (options : RequestOptions.t) (env : Env) : Call :=
  let startTime := now env in
  let requestOptions := defaultRequestOptions self in
  let requestOptions :=
    RequestOptions.set_method
      (match RequestOptions.method options with
       | Some m => Some m
       | None => RequestOptions.method requestOptions
       end) requestOptions in
  let requestOptions :=
    RequestOptions.set_uri
      (Some (interpolate (RequestOptions.uri requestOptions)
             ++ "/" ++ interpolate (RequestOptions.path options))) requestOptions in
  let requestOptions :=
    RequestOptions.set_body (RequestOptions.postData options) requestOptions in
  let requestOptions :=
    if CouchDb.headers_pass (RequestOptions.headers options)
    then RequestOptions.set_headers
           (Some (CouchDb.Object_assign
                    (default ∅ (RequestOptions.headers requestOptions))
                    (default ∅ (RequestOptions.headers options))))
           requestOptions
    else requestOptions in
  let '(threw, later) :=
    match transport env requestOptions with
    | TransportThrows e => (Some e, [])
    | TransportFulfils elapsed response =>
        (None,
         ((if logging self
           then [ConsoleInfo
                   {| log_statusCode := Response.statusCode response;
                      log_message :=
                        statusCode (RequestOptions.statusCodes options)
                          (Some (Response.statusCode response));
                      log_body := Response.body response;
                      log_duration := (now env + elapsed) - startTime |}]
           else []) ++ [CallResolve (Response.body response)])%list)
    | TransportRejects elapsed error =>
        (None,
         [CallReject
            (ReasonNormalized
               {| error := error;
                  status := or_number (errStatusCode error) 500;
                  message :=
                    statusCode (RequestOptions.statusCodes options)
                      (errStatusCode error);
                  duration := (now env + elapsed) - startTime |})])
    end in
  {| completion := Returns (new_Promise [] threw later);
     sent := [requestOptions];
     console := omap log_of later |}.

Definition getInfo (self : t) : Env -> Call :=
  request self
    (CouchDb.descriptor None None JsUndefined None
       [(200, "OK - Request completed successfully")]).

Definition createDatabase (self : t) (dbName : string) (env : Env) : Call :=
  if negb (CouchDb.match_db_name dbName) then reject_now CouchDb.INVALID_DB_NAME
  else
    request self
      (CouchDb.descriptor (Some (encodeURIComponent dbName)) (Some PUT) JsUndefined
         None
         [(201, "Created - Database created successfully");
          (400, "Bad Request - Invalid database name");
          (401, "Unauthorized - CouchDB Server Administrator privileges required");
          (412, "Precondition Failed - Database already exists")]) env.

Definition getDatabase (self : t) (dbName : string) : Env -> Call :=
  request self
    (CouchDb.descriptor (Some (encodeURIComponent dbName)) None JsUndefined None
       [(200, "OK - Request completed successfully");
        (404, "Not Found – Requested database not found")]).

Definition getAllDocuments (self : t) (dbName : string)
    (queryObj : option (gmap string JsValue)) : Env -> Call :=
  let queryStr := createQueryString queryObj in
  request self
    (CouchDb.descriptor
       (Some (encodeURIComponent dbName ++ "/_all_docs" ++ queryStr))
       None JsUndefined None
       [(200, "OK - Request completed successfully")]).

Definition copyDocument (self : t) (dbName docId newDocId : string) (env : Env)
  : Call :=
  if truthy (JsString docId) && truthy (JsString newDocId) then
    request self
      (CouchDb.descriptor
         (Some (encodeURIComponent dbName ++ "/" ++ encodeURIComponent docId))
         (Some COPY) JsUndefined
         (Some {["Destination" := JsString newDocId]})
         [(201, "Created – Document created and stored on disk");
          (202, "Accepted – Document data accepted, but not yet stored on disk");
          (400, "Bad Request – Invalid request body or parameters");
          (401, "Unauthorized – Write privileges required");
          (404, "Not Found – Specified database or document ID doesn’t exists");
          (409, "Conflict – Document with the specified ID already exists or specified revision is not latest for target document")])
      env
  else reject_now "Invalid docId or newDocId".

Definition listDatabases (self : t) : Env -> Call :=
  request self
    (CouchDb.descriptor (Some "_all_dbs") None JsUndefined None
       [(200, "OK - Request completed successfully")]).

Definition getDatabaseHead (self : t) (dbName : string) : Env -> Call :=
  request self
    (CouchDb.descriptor (Some (encodeURIComponent dbName)) (Some HEAD) JsUndefined
       None
       [(200, "OK - Database exists");
        (404, "Not Found – Requested database not found")]).

Definition deleteDatabase (self : t) (dbName : string) : Env -> Call :=
  request self
    (CouchDb.descriptor (Some (encodeURIComponent dbName)) (Some DELETE) JsUndefined
       None
       [(200, "OK - Database removed successfully");
        (400, "Bad Request - Invalid database name or forgotten document id by accident");
        (401, "Unauthorized - CouchDB Server Administrator privileges required");
        (404, "Not Found - Database doesn’t exist")]).

Definition getDocumentHead (self : t) (dbName docId : string)
    (queryObj : option (gmap string JsValue)) : Env -> Call :=
  let queryStr := createQueryString queryObj in
  request self
    (CouchDb.descriptor
       (Some (encodeURIComponent dbName ++ "/" ++ encodeURIComponent docId
              ++ queryStr))
       (Some HEAD) JsUndefined None
       [(200, "OK - Document exists");
        (304, "Not Modified - Document wasn’t modified since specified revision");
        (401, "Unauthorized - Read privilege required");
        (404, "Not Found - Document not found")]).

Definition getDocument (self : t) (dbName docId : string)
    (queryObj : option (gmap string JsValue)) : Env -> Call :=
  let queryStr := createQueryString queryObj in
  request self
    (CouchDb.descriptor
       (Some (encodeURIComponent dbName ++ "/" ++ encodeURIComponent docId
              ++ queryStr))
       None JsUndefined None
       [(200, "OK - Request completed successfully");
        (304, "Not Modified - Document wasn’t modified since specified revision");
        (400, "Bad Request - The format of the request or revision was invalid");
        (401, "Unauthorized - Read privilege required");
        (404, "Not Found - Document not found")]).

Definition createDocument (self : t) (dbName : string) (doc : JsValue)
    (docId : option string) (env : Env) : Call :=
  match truthy_string docId with
  | Some docId =>
      request self
        (CouchDb.descriptor
           (Some (encodeURIComponent dbName ++ "/" ++ encodeURIComponent docId))
           (Some PUT) doc
           (Some {["content-type" := JsString "application/json"]})
           [(201, "Created – Document created and stored on disk");
            (202, "Accepted – Document data accepted, but not yet stored on disk");
            (400, "Bad Request – Invalid request body or parameters");
            (401, "Unauthorized – Write privileges required");
            (404, "Not Found – Specified database or document ID doesn’t exists");
            (409, "Conflict – Document with the specified ID already exists or specified revision is not latest for target document")])
        env
  | None =>
      request self
        (CouchDb.descriptor (Some (encodeURIComponent dbName)) (Some POST) doc None
           [(201, "Created – Document created and stored on disk");
            (202, "Accepted – Document data accepted, but not yet stored on disk");
            (400, "Bad Request – Invalid database name");
            (401, "Unauthorized – Write privileges required");
            (404, "Not Found – Database doesn’t exists");
            (409, "Conflict – A Conflicting Document with same ID already exists")])
        env
  end.

(** [const postData = { docs: docs }; Object.assign(postData, opts)]. *)
Definition createDocuments (self : t) (dbName : string) (docs : list JsValue)
    (opts : option (list (string * JsValue))) : Env -> Call :=
  let postData := assign_fields [("docs", JsArray docs)] (default [] opts) in
  request self
    (CouchDb.descriptor (Some (encodeURIComponent dbName ++ "/_bulk_docs"))
       (Some POST) (JsObject postData) None
       [(201, "Created – Document(s) have been created or updated");
        (400, "Bad Request – The request provided invalid JSON data");
        (417, "Expectation Failed – Occurs when all_or_nothing option set as true and at least one document was rejected by validation function");
        (500, "Internal Server Error – Malformed data provided, while it’s still valid JSON")]).

Definition deleteDocument (self : t) (dbName docId rev : string) : Env -> Call :=
  request self
    (CouchDb.descriptor
       (Some (encodeURIComponent dbName ++ "/" ++ encodeURIComponent docId
              ++ "?rev=" ++ rev))
       (Some DELETE) JsUndefined None
       [(200, "OK - Document successfully removed");
        (202, "Accepted - Request was accepted, but changes are not yet stored on disk");
        (400, "Bad Request - Invalid request body or parameters");
        (401, "Unauthorized - Write privilege required");
        (404, "Not Found - Specified database or document ID doesn't exist");
        (409, "Conflict - Specified revision is not the latest for target document")]).

Definition findDocuments (self : t) (dbName : string) (findOptions : JsValue)
  : Env -> Call :=
  request self
    (CouchDb.descriptor (Some (encodeURIComponent dbName ++ "/_find")) (Some POST)
       findOptions None
       [(200, "OK - Request completed successfully");
        (400, "Bad Request - Invalid request");
        (401, "Unauthorized - Read permission required");
        (500, "Internal Server Error - Query execution error")]).

Definition getUuids (self : t) (count : option Z) : Env -> Call :=
  let count := default 1 count in
  request self
    (CouchDb.descriptor (Some ("_uuids?count=" ++ NumberToString count)) None
       JsUndefined None
       [(200, "OK - Request completed successfully");
        (403, "Forbidden – Requested more UUIDs than is allowed to retrieve")]).

Definition getDesignDocument (self : t) (dbName docId : string)
    (queryObj : option (gmap string JsValue)) : Env -> Call :=
  let queryStr := createQueryString queryObj in
  request self
    (CouchDb.descriptor
       (Some (encodeURIComponent dbName ++ "/_design/" ++ encodeURIComponent docId
              ++ queryStr))
       None JsUndefined None
       [(200, "OK - Request completed successfully");
        (304, "Not Modified - Document wasn’t modified since specified revision");
        (400, "Bad Request - The format of the request or revision was invalid");
        (401, "Unauthorized - Read privilege required");
        (404, "Not Found - Document not found")]).

Definition getDesignDocumentInfo (self : t) (dbName docId : string) : Env -> Call :=
  request self
    (CouchDb.descriptor
       (Some (encodeURIComponent dbName ++ "/_design/" ++ encodeURIComponent docId
              ++ "/_info"))
       None JsUndefined None
       [(200, "OK - Request completed successfully")]).

Definition createDesignDocument (self : t) (dbName : string) (doc : JsValue)
    (docId : string) : Env -> Call :=
  request self
    (CouchDb.descriptor
       (Some (encodeURIComponent dbName ++ "/_design/" ++ encodeURIComponent docId))
       (Some PUT) doc None
       [(201, "Created – Document created and stored on disk");
        (202, "Accepted – Document data accepted, but not yet stored on disk");
        (400, "Bad Request – Invalid request body or parameters");
        (401, "Unauthorized – Write privileges required");
        (404, "Not Found – Specified database or document ID doesn’t exists");
        (409, "Conflict – Document with the specified ID already exists or specified revision is not latest for target document")]).

Definition deleteDesignDocument (self : t) (dbName docId rev : string)
  : Env -> Call :=
  request self
    (CouchDb.descriptor
       (Some (encodeURIComponent dbName ++ "/_design/" ++ encodeURIComponent docId
              ++ "?rev=" ++ rev))
       (Some DELETE) JsUndefined None
       [(200, "OK - Document successfully removed");
        (202, "Accepted - Request was accepted, but changes are not yet stored on disk");
        (400, "Bad Request - Invalid request body or parameters");
        (401, "Unauthorized - Write privilege required");
        (404, "Not Found - Specified database or document ID doesn't exist");
        (409, "Conflict - Specified revision is not the latest for target document")]).

Definition getView (self : t) (dbName docId viewName : string)
    (queryObj : option (gmap string JsValue)) : Env -> Call :=
  let queryStr := createQueryString queryObj in
  request self
    (CouchDb.descriptor
       (Some (encodeURIComponent dbName ++ "/_design/" ++ encodeURIComponent docId
              ++ "/_view/" ++ encodeURIComponent viewName ++ queryStr))
       None JsUndefined None
       [(200, "OK - Request completed successfully")]).

Definition createIndex (self : t) (dbName : string) (queryObj : JsValue)
  : Env -> Call :=
  request self
    (CouchDb.descriptor (Some (encodeURIComponent dbName ++ "/_index")) (Some POST)
       queryObj None
       [(200, "OK - Index created successfully or already exists");
        (400, "Bad Request - Invalid request");
        (401, "Unauthorized - Admin permission required");
        (500, "Internal Server Error - Execution error")]).

Definition getIndex (self : t) (dbName : string) : Env -> Call :=
  request self
    (CouchDb.descriptor (Some (encodeURIComponent dbName ++ "/_index")) (Some GET)
       JsUndefined None
       [(200, "OK - Success");
        (400, "Bad Request - Invalid request");
        (401, "Unauthorized - Read permission required");
        (500, "Internal Server Error - Execution error")]).

Definition deleteIndex (self : t) (dbName docId indexName : string) : Env -> Call :=
  request self
    (CouchDb.descriptor
       (Some (encodeURIComponent dbName ++ "/_index/" ++ encodeURIComponent docId
              ++ "/json/" ++ encodeURIComponent indexName))
       (Some DELETE) JsUndefined None
       [(200, "OK - Success");
        (400, "Bad Request - Invalid request");
        (401, "Unauthorized - Writer permission required");
        (404, "Not Found - Index not found");
        (500, "Internal Server Error - Execution error")]).

(** The public methods of [CouchDBAdmin] as data. *)
Inductive Operation : Type :=
| GetInfo
| ListDatabases
| CreateDatabase (dbName : string)
| GetDatabase (dbName : string)
| GetDatabaseHead (dbName : string)
| DeleteDatabase (dbName : string)
| GetAllDocuments (dbName : string) (queryObj : option (gmap string JsValue))
| GetDocumentHead (dbName docId : string) (queryObj : option (gmap string JsValue))
| GetDocument (dbName docId : string) (queryObj : option (gmap string JsValue))
| CopyDocument (dbName docId newDocId : string)
| CreateDocument (dbName : string) (doc : JsValue) (docId : option string)
| CreateDocuments (dbName : string) (docs : list JsValue)
    (opts : option (list (string * JsValue)))
| DeleteDocument (dbName docId rev : string)
| FindDocuments (dbName : string) (findOptions : JsValue)
| GetUuids (count : option Z)
| GetDesignDocument (dbName docId : string) (queryObj : option (gmap string JsValue))
| GetDesignDocumentInfo (dbName docId : string)
| CreateDesignDocument (dbName : string) (doc : JsValue) (docId : string)
| DeleteDesignDocument (dbName docId rev : string)
| GetView (dbName docId viewName : string) (queryObj : option (gmap string JsValue))
| CreateIndex (dbName : string) (queryObj : JsValue)
| GetIndex (dbName : string)
| DeleteIndex (dbName docId indexName : string).

Definition invoke (self : t) (op : Operation) : Env -> Call :=
  match op with
  | GetInfo => getInfo self
  | ListDatabases => listDatabases self
  | CreateDatabase dbName => createDatabase self dbName
  | GetDatabase dbName => getDatabase self dbName
  | GetDatabaseHead dbName => getDatabaseHead self dbName
  | DeleteDatabase dbName => deleteDatabase self dbName
  | GetAllDocuments dbName queryObj => getAllDocuments self dbName queryObj
  | GetDocumentHead dbName docId queryObj => getDocumentHead self dbName docId queryObj
  | GetDocument dbName docId queryObj => getDocument self dbName docId queryObj
  | CopyDocument dbName docId newDocId => copyDocument self dbName docId newDocId
  | CreateDocument dbName doc docId => createDocument self dbName doc docId
  | CreateDocuments dbName docs opts => createDocuments self dbName docs opts
  | DeleteDocument dbName docId rev => deleteDocument self dbName docId rev
  | FindDocuments dbName findOptions => findDocuments self dbName findOptions
  | GetUuids count => getUuids self count
  | GetDesignDocument dbName docId queryObj =>
      getDesignDocument self dbName docId queryObj
  | GetDesignDocumentInfo dbName docId => getDesignDocumentInfo self dbName docId
  | CreateDesignDocument dbName doc docId => createDesignDocument self dbName doc docId
  | DeleteDesignDocument dbName docId rev => deleteDesignDocument self dbName docId rev
  | GetView dbName docId viewName queryObj =>
      getView self dbName docId viewName queryObj
  | CreateIndex dbName queryObj => createIndex self dbName queryObj
  | GetIndex dbName => getIndex self dbName
  | DeleteIndex dbName docId indexName => deleteIndex self dbName docId indexName
  end.

End WithStatusCodes.
End CouchDBAdmin.

(** ** The first [CouchDBAdmin], which calls [request.get] directly *)

Module CouchDBAdminLegacy.
Import Js CouchDbOptions Runtime.

Record t : Type := mk {
  host : string;
  port : Z;
  auth : option AuthOptions
}.

Definition constructor (options : option Connection.t) : t * Connection.t :=
  let options := default Connection.empty options in
  let options' :=
    Connection.mk (Connection.host options) (Some 5984) (Connection.auth options)
      (Connection.logging options) (Connection.defaultDatabase options) in
  ({| host := or_default (Connection.host options) "http://127.0.0.1";
      port := 5984;
      auth := Connection.auth options' |},
   options').

(** [getOptions(path = '')]. *)
Definition getOptions (self : t) (path : option string) : RequestOptions.t :=
  let path := default EmptyString path in
  {| RequestOptions.path := None;
     RequestOptions.uri :=
       Some (host self ++ ":" ++ NumberToString (port self) ++ "/" ++ path);
     RequestOptions.postData := JsUndefined;
     RequestOptions.resolveWithFullResponse := None;
     RequestOptions.auth := auth self;
     RequestOptions.json := Some true;
     RequestOptions.statusCodes := None;
     RequestOptions.headers := Some CouchDb.baseline_headers;
     RequestOptions.body := JsUndefined;
     RequestOptions.method := None |}.

(** The request [getInfo] hands to [request.get]. *)
Definition getInfo (self : t) : RequestOptions.t := getOptions self (Some EmptyString).

(** The request [listDatabases] hands to [request.get]. *)
Definition listDatabases (self : t) : RequestOptions.t :=
  getOptions self (Some "_all_dbs").

End CouchDBAdminLegacy.

(** ** Node's [http.STATUS_CODES]

    The table of the Node 8 release line, used where an example needs a
    concrete built-in table; the methods themselves take the table as a
    parameter. *)

Module Node.

Definition STATUS_CODES : gmap Z string :=
  list_to_map
    [(100, "Continue"); (101, "Switching Protocols"); (102, "Processing");
     (200, "OK"); (201, "Created"); (202, "Accepted");
     (203, "Non-Authoritative Information"); (204, "No Content");
     (205, "Reset Content"); (206, "Partial Content"); (207, "Multi-Status");
     (208, "Already Reported"); (226, "IM Used");
     (300, "Multiple Choices"); (301, "Moved Permanently"); (302, "Found");
     (303, "See Other"); (304, "Not Modified"); (305, "Use Proxy");
     (307, "Temporary Redirect"); (308, "Permanent Redirect");
     (400, "Bad Request"); (401, "Unauthorized"); (402, "Payment Required");
     (403, "Forbidden"); (404, "Not Found"); (405, "Method Not Allowed");
     (406, "Not Acceptable"); (407, "Proxy Authentication Required");
     (408, "Request Timeout"); (409, "Conflict"); (410, "Gone");
     (411, "Length Required"); (412, "Precondition Failed");
     (413, "Payload Too Large"); (414, "URI Too Long");
     (415, "Unsupported Media Type"); (416, "Range Not Satisfiable");
     (417, "Expectation Failed"); (418, "I'm a teapot");
     (421, "Misdirected Request"); (422, "Unprocessable Entity");
     (423, "Locked"); (424, "Failed Dependency"); (425, "Unordered Collection");
     (426, "Upgrade Required"); (428, "Precondition Required");
     (429, "Too Many Requests"); (431, "Request Header Fields Too Large");
     (451, "Unavailable For Legal Reasons");
     (500, "Internal Server Error"); (501, "Not Implemented");
     (502, "Bad Gateway"); (503, "Service Unavailable");
     (504, "Gateway Timeout"); (505, "HTTP Version Not Supported");
     (506, "Variant Also Negotiates"); (507, "Insufficient Storage");
     (508, "Loop Detected"); (509, "Bandwidth Limit Exceeded");
     (510, "Not Extended"); (511, "Network Authentication Required")].

End Node.

(** ** Example environments *)

Module Examples.
Import Js CouchDbOptions Runtime.

(** A client built with no options: [new CouchDb()]. *)
Definition client : CouchDb.t := CouchDb.constructor None.

(** A server that answers every request with the given status after 7 ms. *)
Definition server (status : Z) : Env :=
  {| transport := request_promise (fun _ => Replies 7 status JsNull); now := 1000 |}.

(** A transport whose [request(...)] call throws before returning. *)
Definition broken_transport : Env :=
  {| transport := fun _ => TransportThrows (TypeError "transport failure");
     now := 1000 |}.

(** The query object [{ keys: ['a', 'b'] }]. *)
Definition keys_ab : gmap string JsValue :=
  {["keys" := JsArray [JsString "a"; JsString "b"]]}.

End Examples.

(** ** The specification's reading of two rules, for comparison *)

Module Spec.

(** Status message resolution as the specification words it: the override
    table's entry if present, else the built-in table's entry if present,
    else the literal [unknown status]. *)
Definition resolved_message (T1 T2 : gmap Z string) (S : Z) : string :=
  match T2 !! S with
  | Some m => m
  | None =>
      match T1 !! S with
      | Some m => m
      | None => "unknown status"
      end
  end.

(** The headers the specification expects on the outgoing request: the
    baseline merged with the caller's, the caller's winning. *)
Definition merged_headers (supplied : gmap string Js.JsValue)
  : gmap string Js.JsValue :=
  supplied ∪ CouchDb.baseline_headers.

End Spec.

(** ** The settlement of a gateway call, by transport outcome *)

Module Gateway.
Import Js CouchDbOptions Runtime.

(** The value [request] settles its promise with, read off the transport's
    outcome for the request it was handed. *)
Definition settlement (T1 : gmap Z string) (options : RequestOptions.t)
    (t : TransportOutcome) : Settlement :=
  match t with
  | TransportThrows e => Rejected (ReasonRaw e)
  | TransportFulfils _ response => Fulfilled (Response.body response)
  | TransportRejects elapsed e =>
      Rejected
        (ReasonNormalized
           {| error := e;
              status := or_number (errStatusCode e) 500;
              message :=
                CouchDb.statusCode T1 (RequestOptions.statusCodes options)
                  (errStatusCode e);
              duration := elapsed |})
  end.

End Gateway.

(** ** The shapes of a method call, and the two classes side by side *)

Module Calls.
Import Js CouchDbOptions Runtime.

(** What a public method of [CouchDb] can amount to: a promise rejected on
    the spot, an exception, one call of the gateway, or one call of the
    gateway inside the existence-check wrapper.  The descriptors the methods
    build never pass the [length] test on their headers. *)
Inductive Shape (T1 : gmap Z string) (self : CouchDb.t) (env : Env)
  : Call -> Prop :=
| ShapeReject (reason : string) : Shape T1 self env (reject_now reason)
| ShapeThrow (e : JsError) : Shape T1 self env (throw_now e)
| ShapeRequest (o : RequestOptions.t) :
    CouchDb.headers_pass (RequestOptions.headers o) = false ->
    Shape T1 self env (CouchDb.request T1 self o env)
| ShapeExists (o : RequestOptions.t) :
    CouchDb.headers_pass (RequestOptions.headers o) = false ->
    Shape T1 self env (CouchDb.exists_check (CouchDb.request T1 self o env)).

(** The [CouchDb] client on the connection of a [CouchDBAdmin], without a
    default database. *)
Definition as_client (admin : CouchDBAdmin.t) : CouchDb.t :=
  CouchDb.mk (CouchDBAdmin.host admin) (CouchDBAdmin.port admin)
    (CouchDBAdmin.auth admin) (CouchDBAdmin.logging admin) None.

(** The calls of [CouchDBAdmin] that a local check stops: [createDatabase]
    on a name outside the pattern and [copyDocument] with an empty id. *)
Definition locally_rejected (op : CouchDBAdmin.Operation) : bool :=
  match op with
  | CouchDBAdmin.CreateDatabase dbName => negb (CouchDb.match_db_name dbName)
  | CouchDBAdmin.CopyDocument _ docId newDocId =>
      negb (truthy (JsString docId) && truthy (JsString newDocId))
  | _ => false
  end.

(** A query object that holds none of the keys of [QUERY_KEYS_JSON]. *)
Definition plain_query (obj : gmap string JsValue) : bool :=
  forallb (fun k => match obj !! k with
                    | None => true
                    | Some _ => false
                    end) CouchDBAdmin.QUERY_KEYS_JSON.

Definition named (dbName : string) : bool := negb (String.eqb dbName EmptyString).

(** The [CouchDb] call that corresponds to a [CouchDBAdmin] call, for the
    methods whose descriptors and status tables coincide in the two classes:
    the database name must not be empty, a query object must be given and
    plain, and [createDocuments] must come without [opts]. *)
Definition counterpart (op : CouchDBAdmin.Operation) : option CouchDb.Operation :=
  match op with
  | CouchDBAdmin.GetInfo => Some CouchDb.GetInfo
  | CouchDBAdmin.GetUuids count => Some (CouchDb.GetUuids count)
  | CouchDBAdmin.CreateDatabase db =>
      if named db then Some (CouchDb.CreateDatabase (Some db)) else None
  | CouchDBAdmin.DeleteDatabase db =>
      if named db then Some (CouchDb.DeleteDatabase (Some db)) else None
  | CouchDBAdmin.GetDocument db docId (Some obj) =>
      if named db && plain_query obj
      then Some (CouchDb.GetDocument docId (Some db) (Some obj)) else None
  | CouchDBAdmin.CopyDocument db docId newDocId =>
      if named db then Some (CouchDb.CopyDocument docId newDocId (Some db)) else None
  | CouchDBAdmin.CreateDocument db doc docId =>
      if named db then Some (CouchDb.CreateDocument doc docId (Some db)) else None
  | CouchDBAdmin.CreateDocuments db docs None =>
      if named db then Some (CouchDb.CreateDocuments docs (Some db)) else None
  | CouchDBAdmin.DeleteDocument db docId rev =>
      if named db then Some (CouchDb.DeleteDocument (Some db) docId rev) else None
  | CouchDBAdmin.FindDocuments db findOptions =>
      if named db then Some (CouchDb.FindDocuments (Some db) findOptions) else None
  | CouchDBAdmin.GetDesignDocument db docId (Some obj) =>
      if named db && plain_query obj
      then Some (CouchDb.GetDesignDocument (Some db) docId (Some obj)) else None
  | CouchDBAdmin.GetDesignDocumentInfo db docId =>
      if named db then Some (CouchDb.GetDesignDocumentInfo (Some db) docId) else None
  | CouchDBAdmin.CreateDesignDocument db doc docId =>
      if named db then Some (CouchDb.CreateDesignDocument (Some db) doc docId)
      else None
  | CouchDBAdmin.DeleteDesignDocument db docId rev =>
      if named db then Some (CouchDb.DeleteDesignDocument (Some db) docId rev)
      else None
  | CouchDBAdmin.GetView db docId viewName (Some obj) =>
      if named db && plain_query obj
      then Some (CouchDb.GetDocumentView (Some db) docId viewName (Some obj))
      else None
  | CouchDBAdmin.GetIndex db =>
      if named db then Some (CouchDb.GetIndexes (Some db)) else None
  | CouchDBAdmin.DeleteIndex db docId indexName =>
      if named db then Some (CouchDb.DeleteIndex (Some db) docId indexName) else None
  | _ => None
  end.

End Calls.

(** * Properties *)

Import Js CouchDbOptions Runtime Examples Gateway.

(** ** Status message resolution *)

Lemma lookup_Object_assign (a b : gmap Z string) (k : Z) :
  CouchDb.Object_assign a b !! k =
  match b !! k with
  | Some m => Some m
  | None => a !! k
  end.
Proof.
  unfold CouchDb.Object_assign. rewrite lookup_union.
  destruct (b !! k), (a !! k); reflexivity.
Qed.

Lemma statusCode_lookup (T1 T2 : gmap Z string) (S : Z) :
  CouchDb.statusCode T1 (Some T2) (Some S) =
    match T2 !! S with
    | Some m => if String.eqb m EmptyString then "unknown status" else m
    | None =>
        match T1 !! S with
        | Some m => if String.eqb m EmptyString then "unknown status" else m
        | None => "unknown status"
        end
    end.
Proof.
  unfold CouchDb.statusCode; simpl.
  rewrite lookup_Object_assign.
  destruct (T2 !! S) as [m|]; [reflexivity|].
  destruct (T1 !! S) as [m|]; reflexivity.
Qed.

(** C3, as the code has it: the resolved message is the override entry if the
    code is a key of the override table, else the built-in entry if it is a
    key of the built-in table; an absent entry and an entry that is the empty
    string both resolve to [unknown status].  Both classes agree. *)
Theorem statusCode_resolution (T1 T2 : gmap Z string) (S : Z) :
  CouchDb.statusCode T1 (Some T2) (Some S) =
    match T2 !! S with
    | Some m => if String.eqb m EmptyString then "unknown status" else m
    | None =>
        match T1 !! S with
        | Some m => if String.eqb m EmptyString then "unknown status" else m
        | None => "unknown status"
        end
    end
  /\ CouchDBAdmin.statusCode T1 (Some T2) (Some S)
     = CouchDb.statusCode T1 (Some T2) (Some S).
Proof. split; [apply statusCode_lookup|reflexivity]. Qed.

(** C3, counterexample: with the override table [{200: ''}] and status 200
    the specification's rule yields the empty string, the code
    [unknown status]. *)
Lemma statusCode_empty_override :
  Spec.resolved_message Node.STATUS_CODES {[200 := EmptyString]} 200 = EmptyString
  /\ CouchDb.statusCode Node.STATUS_CODES (Some {[200 := EmptyString]}) (Some 200)
     = "unknown status"
  /\ CouchDb.statusCode Node.STATUS_CODES (Some {[200 := EmptyString]}) (Some 200)
     <> Spec.resolved_message Node.STATUS_CODES {[200 := EmptyString]} 200.
Proof. repeat split; vm_compute; congruence. Qed.

(** Where every message of both tables is non-empty the code follows the
    specification's rule. *)
Lemma statusCode_refines_spec (T1 T2 : gmap Z string) (S : Z) :
  (forall k, T1 !! k <> Some EmptyString) ->
  (forall k, T2 !! k <> Some EmptyString) ->
  CouchDb.statusCode T1 (Some T2) (Some S) = Spec.resolved_message T1 T2 S.
Proof.
  intros H1 H2.
  rewrite statusCode_lookup.
  unfold Spec.resolved_message.
  pose proof (H1 S) as H1S. pose proof (H2 S) as H2S.
  destruct (T2 !! S) as [m|].
  - destruct (String.eqb_spec m EmptyString); [subst; congruence|reflexivity].
  - destruct (T1 !! S) as [m|]; [|reflexivity].
    destruct (String.eqb_spec m EmptyString); [subst; congruence|reflexivity].
Qed.

(** A status the error does not carry resolves to [unknown status]. *)
Lemma statusCode_undefined (T1 : gmap Z string) (T2 : option (gmap Z string)) :
  CouchDb.statusCode T1 T2 None = "unknown status".
Proof. reflexivity. Qed.

(** ** The configured port *)

(** C8, as the code has it: [CouchDb] keeps a supplied port unless it is
    absent or zero, in which case it takes 5984; both [CouchDBAdmin] classes
    take 5984 whatever the caller supplied. *)
Theorem constructor_port (options : Connection.t) :
  CouchDb.port (CouchDb.constructor (Some options)) =
    match Connection.port options with
    | Some p => if p =? 0 then 5984 else p
    | None => 5984
    end
  /\ CouchDBAdmin.port (fst (CouchDBAdmin.constructor (Some options))) = 5984
  /\ CouchDBAdminLegacy.port (fst (CouchDBAdminLegacy.constructor (Some options)))
     = 5984.
Proof. repeat split. Qed.

(** C8, counterexample: a caller-supplied port [0] is replaced by 5984. *)
Lemma constructor_port_zero :
  CouchDb.port
    (CouchDb.constructor (Some (Connection.mk None (Some 0) None None None)))
  = 5984
  /\ CouchDb.port
       (CouchDb.constructor (Some (Connection.mk None (Some 0) None None None)))
     <> 0.
Proof. split; [reflexivity|discriminate]. Qed.

(** The port of the README example is kept by [CouchDb] and dropped by
    [CouchDBAdmin], which also overwrites the caller's options object. *)
Example constructor_port_1433 :
  let options := Connection.mk None (Some 1433) None None None in
  CouchDb.port (CouchDb.constructor (Some options)) = 1433
  /\ CouchDBAdmin.port (fst (CouchDBAdmin.constructor (Some options))) = 5984
  /\ Connection.port (snd (CouchDBAdmin.constructor (Some options))) = Some 5984.
Proof. repeat split. Qed.

(** ** The request handed to the transport *)

(** [request] hands exactly one request to the transport, whatever the
    transport then does with it. *)
Lemma request_sent (T1 : gmap Z string) (self : CouchDb.t)
    (options : RequestOptions.t) (env : Env) :
  exists req,
    sent (CouchDb.request T1 self options env) = [req]
    /\ RequestOptions.uri req =
         Some ((CouchDb.host self ++ ":" ++ NumberToString (CouchDb.port self))
               ++ "/" ++ interpolate (RequestOptions.path options))
    /\ RequestOptions.headers req =
         Some (if CouchDb.headers_pass (RequestOptions.headers options)
               then default ∅ (RequestOptions.headers options)
                    ∪ CouchDb.baseline_headers
               else CouchDb.baseline_headers).
Proof.
  unfold CouchDb.request.
  match goal with
  | |- context [transport env ?r] => exists r; destruct (transport env r)
  end; (split; [reflexivity|]);
    destruct (CouchDb.headers_pass (RequestOptions.headers options));
    split; reflexivity.
Qed.

(** Headers without a [length] property never reach the outgoing request. *)
Lemma request_drops_headers (T1 : gmap Z string) (self : CouchDb.t)
    (options : RequestOptions.t) (env : Env) (h : gmap string JsValue) :
  RequestOptions.headers options = Some h ->
  h !! "length" = None ->
  map RequestOptions.headers (sent (CouchDb.request T1 self options env))
  = [Some CouchDb.baseline_headers].
Proof.
  intros Hh Hlen.
  destruct (request_sent T1 self options env) as (req & -> & _ & Hhead).
  simpl. rewrite Hhead, Hh. unfold CouchDb.headers_pass. rewrite Hlen.
  reflexivity.
Qed.

(** Headers that do carry a positive [length] are merged as the
    specification says, the caller winning on every key it supplies. *)
Lemma request_merges_headers_with_length (T1 : gmap Z string) (self : CouchDb.t)
    (options : RequestOptions.t) (env : Env) (h : gmap string JsValue)
    (k : string) (v : JsValue) :
  RequestOptions.headers options = Some h ->
  CouchDb.headers_pass (Some h) = true ->
  h !! k = Some v ->
  exists req merged,
    sent (CouchDb.request T1 self options env) = [req]
    /\ RequestOptions.headers req = Some merged
    /\ merged = Spec.merged_headers h
    /\ merged !! k = Some v.
Proof.
  intros Hh Hpass Hk.
  destruct (request_sent T1 self options env) as (req & Hsent & _ & Hhead).
  exists req, (Spec.merged_headers h). rewrite Hh, Hpass in Hhead.
  repeat split; try assumption.
  unfold Spec.merged_headers. apply lookup_union_Some_l. exact Hk.
Qed.

(** C1, the code at [copyDocument({dbName: 'db', docId: 'a', newDocId: 'b'})]
    and at [createDocument({dbName: 'db', doc: null, docId: 'a'})]: the
    outgoing request carries the baseline headers only, so neither
    [Destination] nor [content-type] is on it, although the merge the
    specification describes would put them there. *)
Theorem supplied_headers_are_dropped :
  let copy := CouchDb.copyDocument Node.STATUS_CODES client "a" "b" (Some "db")
                (server 201) in
  let create := CouchDb.createDocument Node.STATUS_CODES client JsNull (Some "a")
                  (Some "db") (server 201) in
  let admin_copy :=
    CouchDBAdmin.copyDocument Node.STATUS_CODES
      (fst (CouchDBAdmin.constructor None)) "db" "a" "b" (server 201) in
  map RequestOptions.headers (sent copy) = [Some CouchDb.baseline_headers]
  /\ map RequestOptions.headers (sent create) = [Some CouchDb.baseline_headers]
  /\ map RequestOptions.headers (sent admin_copy) = [Some CouchDb.baseline_headers]
  /\ CouchDb.baseline_headers !! "Destination" = None
  /\ CouchDb.baseline_headers !! "content-type" = None
  /\ Spec.merged_headers {["Destination" := JsString "b"]} !! "Destination"
     = Some (JsString "b").
Proof. repeat split; vm_compute; reflexivity. Qed.

(** ** The request target *)

(** A descriptor without [path] is sent to [host:port/undefined]. *)
Lemma request_without_path (T1 : gmap Z string) (self : CouchDb.t)
    (options : RequestOptions.t) (env : Env) :
  RequestOptions.path options = None ->
  map RequestOptions.uri (sent (CouchDb.request T1 self options env))
  = [Some ((CouchDb.host self ++ ":" ++ NumberToString (CouchDb.port self))
           ++ "/undefined")].
Proof.
  intros Hpath.
  destruct (request_sent T1 self options env) as (req & -> & Huri & _).
  simpl. rewrite Huri, Hpath. reflexivity.
Qed.

(** C7, the code at [new CouchDb().getInfo()]: the request goes to
    [http://127.0.0.1:5984/undefined], not to the server root; the first
    [CouchDBAdmin], whose [getOptions] defaults the path to the empty
    string, targets [http://127.0.0.1:5984/]. *)
Theorem getInfo_target :
  map RequestOptions.uri
    (sent (CouchDb.getInfo Node.STATUS_CODES client (server 200)))
  = [Some "http://127.0.0.1:5984/undefined"]
  /\ RequestOptions.uri
       (CouchDBAdminLegacy.getInfo (fst (CouchDBAdminLegacy.constructor None)))
     = Some "http://127.0.0.1:5984/".
Proof. split; vm_compute; reflexivity. Qed.

(** ** Query-string composition *)

Lemma stringify_key_lookup (obj : gmap string JsValue) (key k : string) :
  CouchDBAdmin.stringify_key obj key !! k =
  if decide (key = k) then JSON_stringify_value <$> obj !! k else obj !! k.
Proof.
  unfold CouchDBAdmin.stringify_key.
  destruct (decide (key = k)) as [->|Hne].
  - destruct (obj !! k) as [v|] eqn:Hk; simpl.
    + apply lookup_insert_eq.
    + exact Hk.
  - destruct (obj !! key); [apply lookup_insert_ne; exact Hne|reflexivity].
Qed.

Lemma stringify_keys_lookup (keys : list string) :
  NoDup keys ->
  forall (obj : gmap string JsValue) (k : string),
    foldl CouchDBAdmin.stringify_key obj keys !! k =
    if decide (k ∈ keys) then JSON_stringify_value <$> obj !! k else obj !! k.
Proof.
  induction 1 as [|key keys Hnotin Hnodup IH]; intros obj k; simpl.
  - destruct (decide (k ∈ [])) as [Hin|_]; [inversion Hin|reflexivity].
  - rewrite IH, stringify_key_lookup.
    destruct (decide (key = k)) as [->|Hne].
    + destruct (decide (k ∈ keys)); [contradiction|].
      destruct (decide (k ∈ k :: keys)) as [_|Hout]; [reflexivity|].
      exfalso; apply Hout; left.
    + destruct (decide (k ∈ keys)) as [Hin|Hout].
      * destruct (decide (k ∈ key :: keys)) as [_|Hout']; [reflexivity|].
        exfalso; apply Hout'; right; exact Hin.
      * destruct (decide (k ∈ key :: keys)) as [Hin'|_]; [|reflexivity].
        apply elem_of_cons in Hin' as [->|Hin']; contradiction.
Qed.


(** C2, the code at the query object [{keys: ['a','b']}]: [CouchDb] hands the
    object to [querystring.stringify] as it is and composes
    [?keys=a&keys=b], which holds no JSON array literal; [CouchDBAdmin],
    which serializes the structured keys first, composes the URL-encoded JSON
    array.  The same difference shows on [getDocuments] against
    [getAllDocuments]. *)
Theorem createQueryString_keys :
  CouchDb.createQueryString (Some keys_ab) = inr "?keys=a&keys=b"
  /\ CouchDBAdmin.createQueryString (Some keys_ab) = "?keys=%5B%22a%22%2C%22b%22%5D"
  /\ encodeURIComponent
       (default EmptyString (JSON_stringify (JsArray [JsString "a"; JsString "b"])))
     = "%5B%22a%22%2C%22b%22%5D"
  /\ map RequestOptions.uri
       (sent (CouchDb.getDocuments Node.STATUS_CODES client (Some "db")
                (Some keys_ab) (server 200)))
     = [Some "http://127.0.0.1:5984/db/_all_docs?keys=a&keys=b"]
  /\ map RequestOptions.uri
       (sent (CouchDBAdmin.getAllDocuments Node.STATUS_CODES
                (fst (CouchDBAdmin.constructor None)) "db" (Some keys_ab)
                (server 200)))
     = [Some "http://127.0.0.1:5984/db/_all_docs?keys=%5B%22a%22%2C%22b%22%5D"].
Proof. repeat split; vm_compute; reflexivity. Qed.

(** A string-valued [key], as the option types declare it, is sent bare by
    [CouchDb] and as a JSON string by [CouchDBAdmin]. *)
Example createQueryString_key_string :
  CouchDb.createQueryString (Some {["key" := JsString "abc"]}) = inr "?key=abc"
  /\ CouchDBAdmin.createQueryString (Some {["key" := JsString "abc"]})
     = "?key=%22abc%22".
Proof. split; vm_compute; reflexivity. Qed.

(** The empty mapping composes the empty string in both classes. *)
Lemma createQueryString_empty :
  CouchDb.createQueryString (Some ∅) = inr EmptyString
  /\ CouchDBAdmin.createQueryString (Some ∅) = EmptyString
  /\ CouchDBAdmin.createQueryString None = EmptyString.
Proof. repeat split. Qed.

(** ** Settlement of the gateway's promise *)

Lemma request_settlement (T1 : gmap Z string) (self : CouchDb.t)
    (options : RequestOptions.t) (env : Env) :
  exists req p,
    sent (CouchDb.request T1 self options env) = [req]
    /\ completion (CouchDb.request T1 self options env) = Returns p
    /\ settle_calls p = 1%nat
    /\ outcome p = Some (settlement T1 options (transport env req))
    /\ on_return p = match transport env req with
                     | TransportThrows e => Some (Rejected (ReasonRaw e))
                     | _ => None
                     end.
Proof.
  unfold CouchDb.request.
  match goal with
  | |- context [transport env ?r] => exists r; destruct (transport env r)
  end; eexists; (split; [reflexivity|]); (split; [reflexivity|]).
  - repeat split.
  - destruct (CouchDb.logging self); repeat split.
  - unfold new_Promise; simpl. repeat split.
    do 4 f_equal. lia.
Qed.

(** The gateway of [CouchDBAdmin] is the gateway of a [CouchDb] client with
    the same connection. *)
Lemma admin_request_eq (T1 : gmap Z string) (admin : CouchDBAdmin.t)
    (options : RequestOptions.t) (env : Env) :
  CouchDBAdmin.request T1 admin options env =
  CouchDb.request T1
    (CouchDb.mk (CouchDBAdmin.host admin) (CouchDBAdmin.port admin)
       (CouchDBAdmin.auth admin) (CouchDBAdmin.logging admin) None)
    options env.
Proof. reflexivity. Qed.

(** C9, as the code has it: the promise of every gateway call has its
    [resolve] or [reject] run exactly once and ends settled.  It is fulfilled
    with the response body when the transport's promise is fulfilled,
    rejected with the normalized error (status 500 when the error carries
    none) when the transport's promise is rejected, and rejected with the
    exception itself, not normalized, when the transport call throws. *)
Theorem request_settles_once (T1 : gmap Z string) (self : CouchDb.t)
    (admin : CouchDBAdmin.t) (options : RequestOptions.t) (env : Env) :
  (exists req p,
     sent (CouchDb.request T1 self options env) = [req]
     /\ completion (CouchDb.request T1 self options env) = Returns p
     /\ settle_calls p = 1%nat
     /\ outcome p = Some (settlement T1 options (transport env req)))
  /\ (exists req p,
        sent (CouchDBAdmin.request T1 admin options env) = [req]
        /\ completion (CouchDBAdmin.request T1 admin options env) = Returns p
        /\ settle_calls p = 1%nat
        /\ outcome p = Some (settlement T1 options (transport env req))).
Proof.
  split; [|rewrite admin_request_eq];
    match goal with
    | |- context [CouchDb.request T1 ?s options env] =>
        destruct (request_settlement T1 s options env)
          as (req & p & Hsent & Hret & Hcalls & Hout & _)
    end; exists req, p; auto.
Qed.

(** C9, counterexample: when the transport call throws, the promise of
    [getInfo] is rejected with the thrown [TypeError] as it is; it is neither
    fulfilled nor rejected with a normalized error. *)
Lemma request_on_transport_throw :
  final_state (CouchDb.getInfo Node.STATUS_CODES client broken_transport)
  = Some (Rejected (ReasonRaw (TypeError "transport failure")))
  /\ ~ (exists v,
         final_state (CouchDb.getInfo Node.STATUS_CODES client broken_transport)
         = Some (Fulfilled v))
  /\ ~ (exists n,
         final_state (CouchDb.getInfo Node.STATUS_CODES client broken_transport)
         = Some (Rejected (ReasonNormalized n))).
Proof.
  assert (H : final_state (CouchDb.getInfo Node.STATUS_CODES client broken_transport)
              = Some (Rejected (ReasonRaw (TypeError "transport failure"))))
    by (vm_compute; reflexivity).
  rewrite H. repeat split; intros [x Hx]; discriminate.
Qed.

(** A rejection of the transport without a status code is normalized to
    status 500 and the message [unknown status]. *)
Example request_unreachable :
  final_state
    (CouchDb.getDatabases Node.STATUS_CODES client
       {| transport := request_promise (fun _ => Unreachable 3 "ECONNREFUSED");
          now := 0 |})
  = Some (Rejected
            (ReasonNormalized
               {| error := RequestError "ECONNREFUSED";
                  status := 500;
                  message := "unknown status";
                  duration := 3 |})).
Proof. vm_compute; reflexivity. Qed.

(** ** Local checks made before a request is sent *)

Lemma with_db_none (self : CouchDb.t) (k : string -> Env -> Call) (env : Env) :
  CouchDb.defaultDatabase self = None ->
  CouchDb.with_db self None k env = reject_now CouchDb.NO_DB.
Proof. intros H. unfold CouchDb.with_db. rewrite H. reflexivity. Qed.

Lemma with_db_some (self : CouchDb.t) (arg : option string) (db : string)
    (k : string -> Env -> Call) (env : Env) :
  truthy_string (or_string arg (CouchDb.defaultDatabase self)) = Some db ->
  CouchDb.with_db self arg k env = k db env.
Proof. intros H. unfold CouchDb.with_db. rewrite H. reflexivity. Qed.

(** C5: a database-scoped operation called without a database name on a
    client without a default database returns a promise that is already
    rejected, and hands nothing to the transport. *)
Theorem no_database_rejects_synchronously (T1 : gmap Z string) (self : CouchDb.t)
    (op : CouchDb.Operation) (env : Env) :
  CouchDb.dbName_argument op = Some None ->
  CouchDb.defaultDatabase self = None ->
  state_on_return (CouchDb.invoke T1 self op env)
    = Some (Rejected (ReasonString CouchDb.NO_DB))
  /\ sent (CouchDb.invoke T1 self op env) = [].
Proof.
  intros Harg Hdef.
  assert (Hcall : CouchDb.invoke T1 self op env = reject_now CouchDb.NO_DB).
  { destruct op; simpl in Harg; try discriminate;
      injection Harg as ->; apply with_db_none; exact Hdef. }
  rewrite Hcall. split; reflexivity.
Qed.

Lemma no_database_rejects_synchronously_witness :
  CouchDb.dbName_argument (CouchDb.GetDatabase None) = Some None
  /\ CouchDb.defaultDatabase client = None
  /\ state_on_return
       (CouchDb.invoke Node.STATUS_CODES client (CouchDb.GetDatabase None)
          (server 200))
     = Some (Rejected (ReasonString CouchDb.NO_DB))
  /\ sent (CouchDb.invoke Node.STATUS_CODES client (CouchDb.GetDatabase None)
             (server 200)) = [].
Proof.
  split; [reflexivity|]. split; [reflexivity|].
  apply (no_database_rejects_synchronously Node.STATUS_CODES client
           (CouchDb.GetDatabase None) (server 200)); reflexivity.
Defined.

(** C6, as the code has it: [createDatabase] returns a promise already
    rejected with the invalid-name message and hands nothing to the
    transport when the name does not match the pattern: in [CouchDb] the
    name it was given or else the default database, in [CouchDBAdmin] the
    name it was given, the empty string included. *)
Theorem createDatabase_validates_name (T1 : gmap Z string) (self : CouchDb.t)
    (admin : CouchDBAdmin.t) (arg : option string) (db name : string) (env : Env) :
  (truthy_string (or_string arg (CouchDb.defaultDatabase self)) = Some db ->
   CouchDb.match_db_name db = false ->
   state_on_return (CouchDb.invoke T1 self (CouchDb.CreateDatabase arg) env)
     = Some (Rejected (ReasonString CouchDb.INVALID_DB_NAME))
   /\ sent (CouchDb.invoke T1 self (CouchDb.CreateDatabase arg) env) = [])
  /\ (CouchDb.match_db_name name = false ->
      state_on_return (CouchDBAdmin.createDatabase T1 admin name env)
        = Some (Rejected (ReasonString CouchDb.INVALID_DB_NAME))
      /\ sent (CouchDBAdmin.createDatabase T1 admin name env) = []).
Proof.
  split.
  - intros Hdb Hbad. simpl. unfold CouchDb.createDatabase.
    rewrite (with_db_some self arg db _ env Hdb), Hbad. split; reflexivity.
  - intros Hbad. unfold CouchDBAdmin.createDatabase. rewrite Hbad.
    split; reflexivity.
Qed.

Lemma createDatabase_validates_name_witness :
  truthy_string (or_string (Some "Test") (CouchDb.defaultDatabase client))
    = Some "Test"
  /\ CouchDb.match_db_name "Test" = false
  /\ CouchDb.match_db_name EmptyString = false
  /\ (state_on_return
        (CouchDb.invoke Node.STATUS_CODES client
           (CouchDb.CreateDatabase (Some "Test")) (server 201))
        = Some (Rejected (ReasonString CouchDb.INVALID_DB_NAME))
      /\ sent (CouchDb.invoke Node.STATUS_CODES client
                 (CouchDb.CreateDatabase (Some "Test")) (server 201)) = [])
  /\ (state_on_return
        (CouchDBAdmin.createDatabase Node.STATUS_CODES
           (fst (CouchDBAdmin.constructor None)) EmptyString (server 201))
        = Some (Rejected (ReasonString CouchDb.INVALID_DB_NAME))
      /\ sent (CouchDBAdmin.createDatabase Node.STATUS_CODES
                 (fst (CouchDBAdmin.constructor None)) EmptyString (server 201))
         = []).
Proof.
  split; [reflexivity|]. split; [reflexivity|]. split; [reflexivity|].
  destruct (createDatabase_validates_name Node.STATUS_CODES client
              (fst (CouchDBAdmin.constructor None)) (Some "Test") "Test"
              EmptyString (server 201)) as [Hclient Hadmin].
  split; [apply Hclient; reflexivity|apply Hadmin; reflexivity].
Defined.

(** [CouchDBAdmin.createDatabase('Test')] is stopped in the same way. *)
Example admin_createDatabase_Test :
  state_on_return
    (CouchDBAdmin.createDatabase Node.STATUS_CODES
       (fst (CouchDBAdmin.constructor None)) "Test" (server 201))
  = Some (Rejected (ReasonString CouchDb.INVALID_DB_NAME))
  /\ sent (CouchDBAdmin.createDatabase Node.STATUS_CODES
             (fst (CouchDBAdmin.constructor None)) "Test" (server 201)) = [].
Proof. split; reflexivity. Qed.

(** C6, counterexample: [getDatabase('Test')] is not rejected; the name,
    which does not match the pattern, goes out in a request. *)
Lemma getDatabase_sends_invalid_name :
  CouchDb.match_db_name "Test" = false
  /\ CouchDb.dbName_argument (CouchDb.GetDatabase (Some "Test")) = Some (Some "Test")
  /\ map RequestOptions.uri
       (sent (CouchDb.invoke Node.STATUS_CODES client
                (CouchDb.GetDatabase (Some "Test")) (server 200)))
     = [Some "http://127.0.0.1:5984/Test"]
  /\ state_on_return
       (CouchDb.invoke Node.STATUS_CODES client (CouchDb.GetDatabase (Some "Test"))
          (server 200)) = None
  /\ final_state
       (CouchDb.invoke Node.STATUS_CODES client (CouchDb.GetDatabase (Some "Test"))
          (server 200)) = Some (Fulfilled JsNull).
Proof. repeat split; vm_compute; reflexivity. Qed.

(** The pattern on a few names. *)
Example match_db_name_examples :
  CouchDb.match_db_name "test" = true
  /\ CouchDb.match_db_name "a_b$c(d)+e/f-9" = true
  /\ CouchDb.match_db_name "Test" = false
  /\ CouchDb.match_db_name "9lives" = false
  /\ CouchDb.match_db_name "a b" = false
  /\ CouchDb.match_db_name EmptyString = false.
Proof. repeat split. Qed.

(** ** Omitted query options *)

(** [createQueryString] composes the empty string for the empty object and
    for nothing else: on [undefined] it throws, on an object with a key the
    result starts with a question mark. *)
Lemma createQueryString_empty_iff (queryObj : option (gmap string JsValue)) :
  CouchDb.createQueryString queryObj = inr EmptyString <-> queryObj = Some ∅.
Proof.
  split.
  - destruct queryObj as [obj|]; simpl; [|discriminate].
    destruct (0 <? size obj)%nat eqn:Hsize; [discriminate|].
    intros _. f_equal. apply map_size_empty_iff.
    apply Nat.ltb_ge in Hsize. lia.
  - intros ->. reflexivity.
Qed.

(** C10, as the code has it: when a database name is available, from the
    argument or from the default database, a read operation called without
    its query options throws the [TypeError] of [Object.keys(undefined)]
    instead of returning a promise, and hands nothing to the transport;
    [createQueryString] yields the empty query string for the empty object
    only. *)
Theorem omitted_query_options_throw (T1 : gmap Z string) (self : CouchDb.t)
    (op : CouchDb.Operation) (arg : option string) (db : string) (env : Env) :
  CouchDb.query_options_argument op = Some None ->
  CouchDb.dbName_argument op = Some arg ->
  truthy_string (or_string arg (CouchDb.defaultDatabase self)) = Some db ->
  (completion (CouchDb.invoke T1 self op env)
     = Throws (TypeError "Cannot convert undefined or null to object")
   /\ sent (CouchDb.invoke T1 self op env) = [])
  /\ (forall queryObj,
        CouchDb.createQueryString queryObj = inr EmptyString <-> queryObj = Some ∅).
Proof.
  intros Hopt Harg Hdb. split; [|apply createQueryString_empty_iff].
  destruct op; simpl in Hopt; try discriminate;
    injection Hopt as ->; simpl in Harg; injection Harg as ->;
    unfold CouchDb.invoke, CouchDb.getDocuments, CouchDb.getDocument,
      CouchDb.getDesignDocument, CouchDb.getDocumentView;
    match goal with
    | |- context [CouchDb.with_db self arg ?k env] =>
        rewrite (with_db_some self arg db k env Hdb)
    end; split; reflexivity.
Qed.

Lemma omitted_query_options_throw_witness :
  CouchDb.query_options_argument (CouchDb.GetDocuments (Some "db") None) = Some None
  /\ CouchDb.dbName_argument (CouchDb.GetDocuments (Some "db") None)
     = Some (Some "db")
  /\ truthy_string (or_string (Some "db") (CouchDb.defaultDatabase client))
     = Some "db"
  /\ (completion
        (CouchDb.invoke Node.STATUS_CODES client
           (CouchDb.GetDocuments (Some "db") None) (server 200))
        = Throws (TypeError "Cannot convert undefined or null to object")
      /\ sent (CouchDb.invoke Node.STATUS_CODES client
                 (CouchDb.GetDocuments (Some "db") None) (server 200)) = [])
  /\ (forall queryObj,
        CouchDb.createQueryString queryObj = inr EmptyString <-> queryObj = Some ∅).
Proof.
  split; [reflexivity|]. split; [reflexivity|]. split; [reflexivity|].
  apply (omitted_query_options_throw Node.STATUS_CODES client
           (CouchDb.GetDocuments (Some "db") None) (Some "db") "db" (server 200));
    reflexivity.
Defined.

(** C10, counterexample: [getDocuments({})] on a client without a default
    database does not throw; it returns the promise rejected for the missing
    database name. *)
Lemma getDocuments_without_database_returns :
  CouchDb.query_options_argument (CouchDb.GetDocuments None None) = Some None
  /\ completion
       (CouchDb.invoke Node.STATUS_CODES client (CouchDb.GetDocuments None None)
          (server 200))
     = Returns (Promise_reject CouchDb.NO_DB)
  /\ ~ (exists e,
         completion
           (CouchDb.invoke Node.STATUS_CODES client (CouchDb.GetDocuments None None)
              (server 200)) = Throws e).
Proof.
  split; [reflexivity|]. split; [reflexivity|].
  intros [e He]. vm_compute in He. discriminate.
Qed.

(** ** Existence checks *)

Lemma exists_check_of_request (T1 : gmap Z string) (self : CouchDb.t)
    (options : RequestOptions.t) (env : Env) :
  exists req,
    sent (CouchDb.exists_check (CouchDb.request T1 self options env)) = [req]
    /\ final_state (CouchDb.exists_check (CouchDb.request T1 self options env))
       = match settlement T1 options (transport env req) with
         | Fulfilled _ => Some (Fulfilled (JsBool true))
         | Rejected reason =>
             if CouchDb.is_404 reason then Some (Fulfilled (JsBool false))
             else Some (Rejected reason)
         end.
Proof.
  destruct (request_settlement T1 self options env)
    as (req & p & Hsent & Hret & _ & Hout & _).
  exists req. unfold CouchDb.exists_check, final_state, promise_of.
  rewrite Hret; simpl. rewrite Hsent, Hout. split; [reflexivity|].
  destruct (settlement T1 options (transport env req)) as [v|reason];
    [reflexivity|].
  destruct (CouchDb.is_404 reason); reflexivity.
Qed.

Lemma request_sent_method (T1 : gmap Z string) (self : CouchDb.t)
    (o : RequestOptions.t) (env : Env) :
  exists req,
    sent (CouchDb.request T1 self o env) = [req]
    /\ RequestOptions.method req = Some (default GET (RequestOptions.method o)).
Proof.
  unfold CouchDb.request.
  match goal with
  | |- context [transport env ?r] => exists r; destruct (transport env r)
  end; (split; [reflexivity|]);
    destruct (CouchDb.headers_pass (RequestOptions.headers o));
    destruct (RequestOptions.method o); reflexivity.
Qed.

(** The request of an existence check and the state its promise ends in. *)
Lemma exists_check_request (T1 : gmap Z string) (self : CouchDb.t)
    (o : RequestOptions.t) (env : Env) :
  exists req,
    sent (CouchDb.exists_check (CouchDb.request T1 self o env)) = [req]
    /\ RequestOptions.method req = Some (default GET (RequestOptions.method o))
    /\ RequestOptions.uri req =
         Some ((CouchDb.host self ++ ":" ++ NumberToString (CouchDb.port self))
               ++ "/" ++ interpolate (RequestOptions.path o))
    /\ final_state (CouchDb.exists_check (CouchDb.request T1 self o env))
       = match settlement T1 o (transport env req) with
         | Fulfilled _ => Some (Fulfilled (JsBool true))
         | Rejected reason =>
             if CouchDb.is_404 reason then Some (Fulfilled (JsBool false))
             else Some (Rejected reason)
         end.
Proof.
  destruct (exists_check_of_request T1 self o env) as (req & Hs & Hf).
  destruct (request_sent T1 self o env) as (r1 & Hs1 & Hu & _).
  destruct (request_sent_method T1 self o env) as (r2 & Hs2 & Hm).
  assert (Hreq : sent (CouchDb.request T1 self o env) = [req]).
  { revert Hs. unfold CouchDb.exists_check.
    destruct (completion (CouchDb.request T1 self o env)); intros Hs; exact Hs. }
  assert (r1 = req) as -> by congruence.
  assert (r2 = req) as -> by congruence.
  exists req. repeat split; assumption.
Qed.

(** C4: an existence check called with a database name available sends one
    [HEAD] request for the encoded database, or database and document; when
    the remote answers that request with 404 the promise is fulfilled with
    [false]; with 200 it is fulfilled with [true]; with any other status
    that request-promise treats as a failure it is rejected with the
    normalized error built from that reply. *)
Theorem exists_check_outcome (T1 : gmap Z string) (self : CouchDb.t)
    (op : CouchDb.Operation) (arg : option string) (db : string)
    (remote : RequestOptions.t -> RemoteReply) (t0 : Z) :
  CouchDb.is_exists_check op = true ->
  CouchDb.dbName_argument op = Some arg ->
  truthy_string (or_string arg (CouchDb.defaultDatabase self)) = Some db ->
  exists req,
    sent (CouchDb.invoke T1 self op (mkEnv (request_promise remote) t0)) = [req]
    /\ RequestOptions.method req = Some HEAD
    /\ RequestOptions.uri req =
         Some ((CouchDb.host self ++ ":" ++ NumberToString (CouchDb.port self))
               ++ "/"
               ++ match op with
                  | CouchDb.CheckDocumentExists _ docId =>
                      encodeURIComponent db ++ "/" ++ encodeURIComponent docId
                  | _ => encodeURIComponent db
                  end)
    /\ forall elapsed s payload,
         remote req = Replies elapsed s payload ->
         (s = 404 ->
            final_state
              (CouchDb.invoke T1 self op (mkEnv (request_promise remote) t0))
            = Some (Fulfilled (JsBool false)))
         /\ (s = 200 ->
               final_state
                 (CouchDb.invoke T1 self op (mkEnv (request_promise remote) t0))
               = Some (Fulfilled (JsBool true)))
         /\ (s <> 404 -> is2xx s = false ->
               exists n,
                 final_state
                   (CouchDb.invoke T1 self op (mkEnv (request_promise remote) t0))
                 = Some (Rejected (ReasonNormalized n))
                 /\ error n = StatusCodeError s payload
                 /\ status n = (if s =? 0 then 500 else s)
                 /\ duration n = elapsed).
Proof.
  intros Hop Harg Hdb.
  destruct op; try discriminate Hop; simpl in Harg; injection Harg as ->;
    unfold CouchDb.invoke, CouchDb.checkDatabaseExists, CouchDb.checkDocumentExists;
    rewrite (with_db_some self arg db _ _ Hdb);
    match goal with
    | |- context [CouchDb.exists_check (CouchDb.request T1 self ?o ?e)] =>
        destruct (exists_check_request T1 self o e) as (req & Hs & Hm & Hu & Hf)
    end;
    (exists req; split; [exact Hs|]; split; [exact Hm|]; split; [exact Hu|]);
    intros elapsed s payload Hremote; rewrite Hf; simpl;
    unfold request_promise; rewrite Hremote;
    (repeat split;
     [ intros ->; reflexivity
     | intros ->; reflexivity
     | intros Hne H2xx; rewrite H2xx; simpl;
       destruct (Z.eqb_spec s 404) as [|_]; [contradiction|];
       eexists; split; [reflexivity|]; repeat split ]).
Qed.

Lemma exists_check_outcome_witness :
  CouchDb.is_exists_check (CouchDb.CheckDocumentExists (Some "db") "doc") = true
  /\ CouchDb.dbName_argument (CouchDb.CheckDocumentExists (Some "db") "doc")
     = Some (Some "db")
  /\ truthy_string (or_string (Some "db") (CouchDb.defaultDatabase client))
     = Some "db"
  /\ exists req,
       sent (CouchDb.invoke Node.STATUS_CODES client
               (CouchDb.CheckDocumentExists (Some "db") "doc")
               (mkEnv (request_promise (fun _ => Replies 7 404 JsNull)) 1000))
       = [req]
       /\ RequestOptions.method req = Some HEAD
       /\ RequestOptions.uri req =
            Some ((CouchDb.host client ++ ":"
                   ++ NumberToString (CouchDb.port client))
                  ++ "/" ++ encodeURIComponent "db" ++ "/"
                  ++ encodeURIComponent "doc")
       /\ forall elapsed s payload,
            (fun _ : RequestOptions.t => Replies 7 404 JsNull) req
            = Replies elapsed s payload ->
            (s = 404 ->
               final_state
                 (CouchDb.invoke Node.STATUS_CODES client
                    (CouchDb.CheckDocumentExists (Some "db") "doc")
                    (mkEnv (request_promise (fun _ => Replies 7 404 JsNull)) 1000))
               = Some (Fulfilled (JsBool false)))
            /\ (s = 200 ->
                  final_state
                    (CouchDb.invoke Node.STATUS_CODES client
                       (CouchDb.CheckDocumentExists (Some "db") "doc")
                       (mkEnv (request_promise (fun _ => Replies 7 404 JsNull))
                          1000))
                  = Some (Fulfilled (JsBool true)))
            /\ (s <> 404 -> is2xx s = false ->
                  exists n,
                    final_state
                      (CouchDb.invoke Node.STATUS_CODES client
                         (CouchDb.CheckDocumentExists (Some "db") "doc")
                         (mkEnv (request_promise (fun _ => Replies 7 404 JsNull))
                            1000))
                    = Some (Rejected (ReasonNormalized n))
                    /\ error n = StatusCodeError s payload
                    /\ status n = (if s =? 0 then 500 else s)
                    /\ duration n = elapsed).
Proof.
  split; [reflexivity|]. split; [reflexivity|]. split; [reflexivity|].
  apply (exists_check_outcome Node.STATUS_CODES client
           (CouchDb.CheckDocumentExists (Some "db") "doc") (Some "db") "db"
           (fun _ => Replies 7 404 JsNull) 1000); reflexivity.
Defined.

(** The three cases on a document check. *)
Example checkDocumentExists_cases :
  final_state
    (CouchDb.checkDocumentExists Node.STATUS_CODES client (Some "db") "doc"
       (server 404)) = Some (Fulfilled (JsBool false))
  /\ final_state
       (CouchDb.checkDocumentExists Node.STATUS_CODES client (Some "db") "doc"
          (server 200)) = Some (Fulfilled (JsBool true))
  /\ final_state
       (CouchDb.checkDocumentExists Node.STATUS_CODES client (Some "db") "doc"
          (server 500))
     = Some (Rejected
               (ReasonNormalized
                  {| error := StatusCodeError 500 JsNull;
                     status := 500;
                     message := "Internal Server Error";
                     duration := 7 |})).
Proof. repeat split; vm_compute; reflexivity. Qed.

(** * Further properties of the gateway and its callers *)

Import Calls.

Ltac unfold_methods :=
  unfold CouchDb.invoke, CouchDb.getInfo, CouchDb.getDatabases, CouchDb.getDatabase,
    CouchDb.createDatabase, CouchDb.checkDatabaseExists, CouchDb.deleteDatabase,
    CouchDb.updateDatabaseSecurity, CouchDb.createUser, CouchDb.findDocuments,
    CouchDb.getDocuments, CouchDb.getDocument, CouchDb.checkDocumentExists,
    CouchDb.copyDocument, CouchDb.createDocument, CouchDb.createDocuments,
    CouchDb.deleteDocument, CouchDb.getUuids, CouchDb.getDesignDocument,
    CouchDb.getDesignDocumentInfo, CouchDb.createDesignDocument,
    CouchDb.deleteDesignDocument, CouchDb.getDocumentView, CouchDb.getIndexes,
    CouchDb.createIndex, CouchDb.deleteIndex, CouchDb.with_db.

Ltac unfold_admin_methods :=
  unfold CouchDBAdmin.invoke, CouchDBAdmin.getInfo, CouchDBAdmin.listDatabases,
    CouchDBAdmin.createDatabase, CouchDBAdmin.getDatabase,
    CouchDBAdmin.getDatabaseHead, CouchDBAdmin.deleteDatabase,
    CouchDBAdmin.getAllDocuments, CouchDBAdmin.getDocumentHead,
    CouchDBAdmin.getDocument, CouchDBAdmin.copyDocument,
    CouchDBAdmin.createDocument, CouchDBAdmin.createDocuments,
    CouchDBAdmin.deleteDocument, CouchDBAdmin.findDocuments,
    CouchDBAdmin.getUuids, CouchDBAdmin.getDesignDocument,
    CouchDBAdmin.getDesignDocumentInfo, CouchDBAdmin.createDesignDocument,
    CouchDBAdmin.deleteDesignDocument, CouchDBAdmin.getView,
    CouchDBAdmin.createIndex, CouchDBAdmin.getIndex, CouchDBAdmin.deleteIndex.

(** ** Every public method of [CouchDb] has one of four shapes *)

Lemma invoke_shape (T1 : gmap Z string) (self : CouchDb.t)
    (op : CouchDb.Operation) (env : Env) :
  Shape T1 self env (CouchDb.invoke T1 self op env).
Proof.
  destruct op; unfold_methods; repeat case_match;
    first [apply ShapeReject | apply ShapeThrow
          | apply ShapeRequest; reflexivity | apply ShapeExists; reflexivity].
Qed.

Lemma sent_exists_check (c : Call) : sent (CouchDb.exists_check c) = sent c.
Proof. unfold CouchDb.exists_check. destruct (completion c); reflexivity. Qed.

Lemma console_exists_check (c : Call) : console (CouchDb.exists_check c) = console c.
Proof. unfold CouchDb.exists_check. destruct (completion c); reflexivity. Qed.

Lemma exists_check_promise (T1 : gmap Z string) (self : CouchDb.t)
    (o : RequestOptions.t) (env : Env) :
  exists req p,
    sent (CouchDb.request T1 self o env) = [req]
    /\ completion (CouchDb.exists_check (CouchDb.request T1 self o env)) = Returns p
    /\ settle_calls p = 1%nat
    /\ on_return p = None
    /\ outcome p = Some
         match settlement T1 o (transport env req) with
         | Fulfilled _ => Fulfilled (JsBool true)
         | Rejected reason =>
             if CouchDb.is_404 reason then Fulfilled (JsBool false)
             else Rejected reason
         end.
Proof.
  destruct (request_settlement T1 self o env)
    as (req & p & Hsent & Hret & _ & Hout & _).
  exists req. unfold CouchDb.exists_check. rewrite Hret, Hout.
  eexists. split; [exact Hsent|]. split; [reflexivity|].
  destruct (settlement T1 o (transport env req)) as [v|reason];
    [repeat split|].
  destruct (CouchDb.is_404 reason); repeat split.
Qed.

Lemma request_sent_fields (T1 : gmap Z string) (self : CouchDb.t)
    (o : RequestOptions.t) (env : Env) :
  exists req,
    sent (CouchDb.request T1 self o env) = [req]
    /\ RequestOptions.auth req = CouchDb.auth self
    /\ RequestOptions.json req = Some true
    /\ RequestOptions.resolveWithFullResponse req = Some true
    /\ RequestOptions.body req = RequestOptions.postData o
    /\ RequestOptions.method req = Some (default GET (RequestOptions.method o)).
Proof.
  unfold CouchDb.request.
  match goal with
  | |- context [transport env ?r] => exists r; destruct (transport env r)
  end; (split; [reflexivity|]);
    destruct (CouchDb.headers_pass (RequestOptions.headers o));
    destruct (RequestOptions.method o); repeat split.
Qed.

Lemma request_log (T1 : gmap Z string) (self : CouchDb.t)
    (o : RequestOptions.t) (env : Env) :
  exists req,
    sent (CouchDb.request T1 self o env) = [req]
    /\ console (CouchDb.request T1 self o env)
       = match transport env req with
         | TransportFulfils elapsed response =>
             if CouchDb.logging self
             then [{| log_statusCode := Response.statusCode response;
                      log_message :=
                        CouchDb.statusCode T1 (RequestOptions.statusCodes o)
                          (Some (Response.statusCode response));
                      log_body := Response.body response;
                      log_duration := elapsed |}]
             else []
         | _ => []
         end.
Proof.
  unfold CouchDb.request.
  match goal with
  | |- context [transport env ?r] => exists r; destruct (transport env r)
  end; (split; [reflexivity|]); try reflexivity.
  destruct (CouchDb.logging self); [|reflexivity].
  simpl. do 2 f_equal. lia.
Qed.

(** ** Logging *)

(** X1: a gateway call writes one record to the console, holding the status
    code, the resolved message, the body and the elapsed time, exactly when
    logging is enabled and the transport's promise is fulfilled; a rejected
    or throwing transport, or a client without logging, writes nothing. *)
Theorem request_console (T1 : gmap Z string) (self : CouchDb.t)
    (o : RequestOptions.t) (env : Env) :
  exists req,
    sent (CouchDb.request T1 self o env) = [req]
    /\ console (CouchDb.request T1 self o env)
       = match transport env req with
         | TransportFulfils elapsed response =>
             if CouchDb.logging self
             then [{| log_statusCode := Response.statusCode response;
                      log_message :=
                        CouchDb.statusCode T1 (RequestOptions.statusCodes o)
                          (Some (Response.statusCode response));
                      log_body := Response.body response;
                      log_duration := elapsed |}]
             else []
         | _ => []
         end.
Proof. apply request_log. Qed.

(** X2: whatever public method is called, the console receives at most one
    record, none when logging is off, none when the call throws, and none
    when the returned promise ends rejected: failures are never logged. *)
Theorem invoke_console (T1 : gmap Z string) (self : CouchDb.t)
    (op : CouchDb.Operation) (env : Env) :
  (CouchDb.logging self = false -> console (CouchDb.invoke T1 self op env) = [])
  /\ (forall reason,
        final_state (CouchDb.invoke T1 self op env) = Some (Rejected reason) ->
        console (CouchDb.invoke T1 self op env) = [])
  /\ (forall e,
        completion (CouchDb.invoke T1 self op env) = Throws e ->
        console (CouchDb.invoke T1 self op env) = [])
  /\ (length (console (CouchDb.invoke T1 self op env)) <= 1)%nat.
Proof.
  destruct (invoke_shape T1 self op env) as [reason|e|o _|o _];
    try (repeat split; intros; simpl; solve [reflexivity | lia]).
  - destruct (request_log T1 self o env) as (req & Hs & Hc).
    destruct (request_settlement T1 self o env) as (req' & p & Hs' & Hp & _ & Ho & _).
    rewrite Hs in Hs'. injection Hs' as <-.
    unfold final_state, promise_of. rewrite Hp, Hc; simpl. rewrite Ho.
    destruct (transport env req); simpl;
      repeat split; intros; try reflexivity; try discriminate; try lia.
    + match goal with H : CouchDb.logging self = false |- _ => rewrite H end.
      reflexivity.
    + destruct (CouchDb.logging self); simpl; lia.
  - destruct (request_log T1 self o env) as (req & Hs & Hc).
    destruct (exists_check_promise T1 self o env) as (req' & p & Hs' & Hp & _ & _ & Ho).
    rewrite Hs in Hs'. injection Hs' as <-.
    unfold final_state, promise_of. rewrite console_exists_check, Hp, Hc; simpl.
    rewrite Ho.
    destruct (transport env req); simpl;
      repeat split; intros; try reflexivity; try discriminate; try lia.
    + match goal with H : CouchDb.logging self = false |- _ => rewrite H end.
      reflexivity.
    + destruct (CouchDb.logging self); simpl; lia.
Qed.

(** ** Settlement and requests over all methods *)

(** X3: the promise any public method returns, the existence checks
    included, has its [resolve] or [reject] run exactly once and is never
    left pending. *)
Theorem invoke_settles_once (T1 : gmap Z string) (self : CouchDb.t)
    (op : CouchDb.Operation) (env : Env) (p : Promise) :
  completion (CouchDb.invoke T1 self op env) = Returns p ->
  settle_calls p = 1%nat /\ is_Some (outcome p).
Proof.
  destruct (invoke_shape T1 self op env) as [reason|e|o _|o _]; intros Hp.
  - injection Hp as <-. split; [reflexivity|eexists; reflexivity].
  - discriminate.
  - destruct (request_settlement T1 self o env) as (req & q & _ & Hq & Hc & Ho & _).
    rewrite Hq in Hp. injection Hp as <-. rewrite Ho.
    split; [exact Hc|eexists; reflexivity].
  - destruct (exists_check_promise T1 self o env) as (req & q & _ & Hq & Hc & _ & Ho).
    rewrite Hq in Hp. injection Hp as <-. rewrite Ho.
    split; [exact Hc|eexists; reflexivity].
Qed.

Lemma invoke_settles_once_witness :
  completion
    (CouchDb.invoke Node.STATUS_CODES client
       (CouchDb.CheckDocumentExists (Some "db") "doc") (server 404))
  = Returns {| on_return := None;
               outcome := Some (Fulfilled (JsBool false));
               settle_calls := 1 |}
  /\ settle_calls {| on_return := None;
                     outcome := Some (Fulfilled (JsBool false));
                     settle_calls := 1 |} = 1%nat
  /\ is_Some (outcome {| on_return := None;
                         outcome := Some (Fulfilled (JsBool false));
                         settle_calls := 1 |}).
Proof.
  split; [vm_compute; reflexivity|].
  apply (invoke_settles_once Node.STATUS_CODES client
           (CouchDb.CheckDocumentExists (Some "db") "doc") (server 404)).
  vm_compute; reflexivity.
Defined.

(** X4: a public method hands the transport one request or none; it hands
    none exactly when it throws or returns a promise already rejected with
    the message of a local check. *)
Theorem invoke_sent (T1 : gmap Z string) (self : CouchDb.t)
    (op : CouchDb.Operation) (env : Env) :
  (sent (CouchDb.invoke T1 self op env) = []
   \/ exists req, sent (CouchDb.invoke T1 self op env) = [req])
  /\ (sent (CouchDb.invoke T1 self op env) = [] <->
      (exists e, completion (CouchDb.invoke T1 self op env) = Throws e)
      \/ (exists reason,
            state_on_return (CouchDb.invoke T1 self op env)
            = Some (Rejected (ReasonString reason)))).
Proof.
  destruct (invoke_shape T1 self op env) as [reason|e|o _|o _].
  - split; [left; reflexivity|]. split; [|reflexivity].
    intros _. right. exists reason. reflexivity.
  - split; [left; reflexivity|]. split; [|reflexivity].
    intros _. left. exists e. reflexivity.
  - destruct (request_settlement T1 self o env) as (req & q & Hs & Hq & _ & _ & Hr).
    split; [right; exists req; exact Hs|]. rewrite Hs. split; [discriminate|].
    unfold state_on_return, promise_of. rewrite Hq; simpl. rewrite Hr.
    intros [[e He]|[reason He]]; [discriminate|].
    destruct (transport env req); discriminate.
  - destruct (exists_check_promise T1 self o env) as (req & q & Hs & Hq & _ & Hr & _).
    rewrite sent_exists_check, Hs.
    split; [right; exists req; reflexivity|]. split; [discriminate|].
    unfold state_on_return, promise_of. rewrite Hq; simpl. rewrite Hr.
    intros [[e He]|[reason He]]; discriminate.
Qed.

(** X5: the request of any public method carries the credentials of the
    connection, [json: true], [resolveWithFullResponse: true], exactly the
    two baseline headers, and a target that starts with [host:port/]. *)
Theorem invoke_request_invariant (T1 : gmap Z string) (self : CouchDb.t)
    (op : CouchDb.Operation) (env : Env) (req : RequestOptions.t) :
  sent (CouchDb.invoke T1 self op env) = [req] ->
  RequestOptions.auth req = CouchDb.auth self
  /\ RequestOptions.json req = Some true
  /\ RequestOptions.resolveWithFullResponse req = Some true
  /\ RequestOptions.headers req = Some CouchDb.baseline_headers
  /\ exists path,
       RequestOptions.uri req =
       Some ((CouchDb.host self ++ ":" ++ NumberToString (CouchDb.port self))
             ++ "/" ++ path).
Proof.
  assert (Hreq : forall o, CouchDb.headers_pass (RequestOptions.headers o) = false ->
            sent (CouchDb.request T1 self o env) = [req] ->
            RequestOptions.auth req = CouchDb.auth self
            /\ RequestOptions.json req = Some true
            /\ RequestOptions.resolveWithFullResponse req = Some true
            /\ RequestOptions.headers req = Some CouchDb.baseline_headers
            /\ exists path,
                 RequestOptions.uri req =
                 Some ((CouchDb.host self ++ ":"
                        ++ NumberToString (CouchDb.port self)) ++ "/" ++ path)).
  { intros o Hpass Hin.
    destruct (request_sent_fields T1 self o env) as (r & Hs & Ha & Hj & Hf & _).
    destruct (request_sent T1 self o env) as (r' & Hs' & Hu & Hh).
    rewrite Hs in Hs'. injection Hs' as <-.
    rewrite Hs in Hin. injection Hin as ->.
    rewrite Hpass in Hh. repeat split; try assumption. eexists; exact Hu. }
  destruct (invoke_shape T1 self op env) as [reason|e|o Hp|o Hp].
  - discriminate.
  - discriminate.
  - apply Hreq, Hp.
  - rewrite sent_exists_check. apply Hreq, Hp.
Qed.

Lemma invoke_request_invariant_witness :
  let call :=
    CouchDb.invoke Node.STATUS_CODES client (CouchDb.FindDocuments (Some "db") JsNull)
      (server 200) in
  let req := hd RequestOptions.empty (sent call) in
  sent call = [req]
  /\ RequestOptions.auth req = CouchDb.auth client
  /\ RequestOptions.json req = Some true
  /\ RequestOptions.resolveWithFullResponse req = Some true
  /\ RequestOptions.headers req = Some CouchDb.baseline_headers
  /\ exists path,
       RequestOptions.uri req =
       Some ((CouchDb.host client ++ ":" ++ NumberToString (CouchDb.port client))
             ++ "/" ++ path).
Proof.
  intros call req. split; [reflexivity|].
  apply (invoke_request_invariant Node.STATUS_CODES client
           (CouchDb.FindDocuments (Some "db") JsNull) (server 200) req).
  reflexivity.
Defined.

(** ** The database name *)

(** X6: a public method depends on its database-name argument and on the
    default database only through [dbName || defaultDatabase] taken as a
    truthy string: a non-empty argument makes the default irrelevant, and an
    empty-string argument falls back to the default like an omitted one. *)
Theorem invoke_db_resolution (T1 : gmap Z string) (self : CouchDb.t)
    (op : CouchDb.Operation) (arg1 arg2 d1 d2 : option string) (env : Env) :
  truthy_string (or_string arg1 d1) = truthy_string (or_string arg2 d2) ->
  CouchDb.invoke T1 (CouchDb.set_defaultDatabase d1 self)
    (CouchDb.set_dbName arg1 op) env
  = CouchDb.invoke T1 (CouchDb.set_defaultDatabase d2 self)
      (CouchDb.set_dbName arg2 op) env.
Proof.
  intros H.
  destruct op; simpl CouchDb.set_dbName; unfold_methods;
    cbn [CouchDb.defaultDatabase CouchDb.set_defaultDatabase];
    rewrite ?H; try destruct (truthy_string (or_string arg2 d2)); reflexivity.
Qed.

Lemma invoke_db_resolution_witness :
  truthy_string (or_string (Some "db") (Some "other"))
  = truthy_string (or_string (Some EmptyString) (Some "db"))
  /\ CouchDb.invoke Node.STATUS_CODES
       (CouchDb.set_defaultDatabase (Some "other") client)
       (CouchDb.set_dbName (Some "db") (CouchDb.GetDatabase None)) (server 200)
     = CouchDb.invoke Node.STATUS_CODES
         (CouchDb.set_defaultDatabase (Some "db") client)
         (CouchDb.set_dbName (Some EmptyString) (CouchDb.GetDatabase None))
         (server 200).
Proof.
  split; [reflexivity|].
  apply (invoke_db_resolution Node.STATUS_CODES client (CouchDb.GetDatabase None)
           (Some "db") (Some EmptyString) (Some "other") (Some "db") (server 200)).
  reflexivity.
Defined.

Lemma append_empty_r (s : string) : s ++ EmptyString = s.
Proof.
  induction s as [|c s IH]; [reflexivity|].
  change (String c (s ++ EmptyString) = String c s). rewrite IH. reflexivity.
Qed.

Lemma list_ascii_of_append (a b : string) :
  list_ascii_of_string (a ++ b)
  = (list_ascii_of_string a ++ list_ascii_of_string b)%list.
Proof.
  induction a as [|c a IH]; [reflexivity|].
  change (c :: list_ascii_of_string (a ++ b)
          = c :: (list_ascii_of_string a ++ list_ascii_of_string b)%list).
  rewrite IH. reflexivity.
Qed.

Lemma encode_with_chars (keep : ascii -> bool) (s : string) (c : ascii) :
  In c (list_ascii_of_string (encode_with keep s)) ->
  keep c = true \/ c = "%"%char \/ is_alnum c = true.
Proof.
  induction s as [|a s IH]; [intros []|].
  change (encode_with keep (String a s))
    with ((if keep a then String a EmptyString else percent a)
          ++ encode_with keep s).
  rewrite list_ascii_of_append, in_app_iff.
  intros [Hin|Hin]; [|apply IH, Hin].
  destruct (keep a) eqn:Hk.
  - destruct Hin as [<-|[]]. left; exact Hk.
  - destruct Hin as [<-|[<-|[<-|[]]]]; [right; left; reflexivity| |];
      right; right; clear;
      destruct a as [[] [] [] [] [] [] [] []]; reflexivity.
Qed.

(** No character that separates the parts of a URI survives
    [encodeURIComponent]. *)
Lemma encoded_has_no_separator (s : string) (c : ascii) :
  mem_ascii c "/?#&=:@ " = true ->
  ~ In c (list_ascii_of_string (encodeURIComponent s)).
Proof.
  intros Hsep Hin. apply encode_with_chars in Hin.
  destruct c as [[] [] [] [] [] [] [] []]; vm_compute in Hsep; try discriminate;
    vm_compute in Hin; destruct Hin as [Hin|[Hin|Hin]]; discriminate.
Qed.

Lemma request_target (T1 : gmap Z string) (self : CouchDb.t)
    (o : RequestOptions.t) (env : Env) (req : RequestOptions.t) (p : string) :
  RequestOptions.path o = Some p ->
  sent (CouchDb.request T1 self o env) = [req] ->
  RequestOptions.uri req
  = Some ((CouchDb.host self ++ ":" ++ NumberToString (CouchDb.port self))
          ++ "/" ++ p).
Proof.
  intros Hp Hin.
  destruct (request_sent T1 self o env) as (r & Hs & Hu & _).
  rewrite Hs in Hin. injection Hin as ->.
  rewrite Hu, Hp. reflexivity.
Qed.

(** X7: the request of a database-scoped method targets
    [host:port/] followed by the percent-encoded database name, the name
    that [dbName || defaultDatabase] resolves to, and the encoded name holds
    none of [/ ? # & = : @] nor a space, so it stays one path segment. *)
Theorem invoke_db_target (T1 : gmap Z string) (self : CouchDb.t)
    (op : CouchDb.Operation) (arg : option string) (db : string) (env : Env)
    (req : RequestOptions.t) :
  CouchDb.dbName_argument op = Some arg ->
  truthy_string (or_string arg (CouchDb.defaultDatabase self)) = Some db ->
  sent (CouchDb.invoke T1 self op env) = [req] ->
  (exists rest,
     RequestOptions.uri req
     = Some ((CouchDb.host self ++ ":" ++ NumberToString (CouchDb.port self))
             ++ "/" ++ encodeURIComponent db ++ rest))
  /\ (forall c, mem_ascii c "/?#&=:@ " = true ->
        ~ In c (list_ascii_of_string (encodeURIComponent db))).
Proof.
  intros Harg Hdb Hin. split; [|intros c; apply encoded_has_no_separator].
  destruct op; simpl in Harg; try discriminate; injection Harg as ->;
    revert Hin; unfold_methods; rewrite Hdb; repeat case_match;
    rewrite ?sent_exists_check; intros Hin;
    try discriminate Hin;
    match type of Hin with
    | sent (CouchDb.request T1 self ?o env) = [req] =>
        pose proof (request_target T1 self o env req _ eq_refl Hin) as Hu
    end;
    first [ eexists; exact Hu
          | exists EmptyString; rewrite append_empty_r; exact Hu ].
Qed.

Lemma invoke_db_target_witness :
  let call :=
    CouchDb.invoke Node.STATUS_CODES client
      (CouchDb.DeleteDocument (Some "a/b") "doc" "1-x") (server 200) in
  let req := hd RequestOptions.empty (sent call) in
  CouchDb.dbName_argument (CouchDb.DeleteDocument (Some "a/b") "doc" "1-x")
  = Some (Some "a/b")
  /\ truthy_string (or_string (Some "a/b") (CouchDb.defaultDatabase client))
     = Some "a/b"
  /\ sent call = [req]
  /\ (exists rest,
        RequestOptions.uri req
        = Some ((CouchDb.host client ++ ":" ++ NumberToString (CouchDb.port client))
                ++ "/" ++ encodeURIComponent "a/b" ++ rest))
  /\ (forall c, mem_ascii c "/?#&=:@ " = true ->
        ~ In c (list_ascii_of_string (encodeURIComponent "a/b"))).
Proof.
  intros call req.
  split; [reflexivity|]. split; [reflexivity|]. split; [reflexivity|].
  apply (invoke_db_target Node.STATUS_CODES client
           (CouchDb.DeleteDocument (Some "a/b") "doc" "1-x") (Some "a/b") "a/b"
           (server 200) req); reflexivity.
Defined.

(** ** Existence checks over any transport *)

(** X8: once an existence check has sent its request, its promise is pending
    when the call returns; it is fulfilled with [true] exactly when the
    transport's promise is fulfilled, whatever the response holds, and with
    [false] exactly when the transport's promise is rejected with an error
    whose status code is 404; an exception thrown by the transport call
    rejects it with that exception. *)
Theorem exists_check_by_transport (T1 : gmap Z string) (self : CouchDb.t)
    (op : CouchDb.Operation) (env : Env) (req : RequestOptions.t) :
  CouchDb.is_exists_check op = true ->
  sent (CouchDb.invoke T1 self op env) = [req] ->
  state_on_return (CouchDb.invoke T1 self op env) = None
  /\ (final_state (CouchDb.invoke T1 self op env) = Some (Fulfilled (JsBool true))
      <-> exists elapsed response,
            transport env req = TransportFulfils elapsed response)
  /\ (final_state (CouchDb.invoke T1 self op env) = Some (Fulfilled (JsBool false))
      <-> exists elapsed e,
            transport env req = TransportRejects elapsed e
            /\ errStatusCode e = Some 404)
  /\ (forall e, transport env req = TransportThrows e ->
        final_state (CouchDb.invoke T1 self op env) = Some (Rejected (ReasonRaw e))).
Proof.
  intros Hop Hsent.
  assert (Hshape : exists o,
            CouchDb.invoke T1 self op env
            = CouchDb.exists_check (CouchDb.request T1 self o env)).
  { destruct op; try discriminate Hop; revert Hsent; unfold_methods;
      case_match; try discriminate; intros _; eexists; reflexivity. }
  destruct Hshape as [o Heq]. rewrite Heq in *.
  destruct (exists_check_promise T1 self o env) as (r & p & Hs & Hp & _ & Hr & Ho).
  rewrite sent_exists_check, Hs in Hsent. injection Hsent as ->.
  unfold state_on_return, final_state, promise_of. rewrite Hp; simpl.
  rewrite Hr, Ho. split; [reflexivity|].
  destruct (transport env req) as [e|dt resp|dt e]; simpl.
  - repeat split; try discriminate.
    + intros (? & ? & ?); discriminate.
    + intros (? & ? & ? & ?); discriminate.
    + intros e' [= <-]. reflexivity.
  - repeat split; try discriminate; eauto.
    intros (? & ? & ? & ?); discriminate.
  - destruct (errStatusCode e) as [s|] eqn:Hs'; simpl.
    + destruct (Z.eqb_spec s 404) as [->|Hne]; repeat split; try discriminate; eauto.
      * intros (? & ? & ?); discriminate.
      * intros (? & ? & ?); discriminate.
      * intros (? & e' & [= <- <-] & He'). congruence.
    + repeat split; try discriminate.
      * intros (? & ? & ?); discriminate.
      * intros (? & e' & [= <- <-] & He'). congruence.
Qed.

Lemma exists_check_by_transport_witness :
  let call :=
    CouchDb.invoke Node.STATUS_CODES client (CouchDb.CheckDatabaseExists (Some "db"))
      broken_transport in
  let req := hd RequestOptions.empty (sent call) in
  CouchDb.is_exists_check (CouchDb.CheckDatabaseExists (Some "db")) = true
  /\ sent call = [req]
  /\ state_on_return call = None
  /\ (final_state call = Some (Fulfilled (JsBool true))
      <-> exists elapsed response,
            transport broken_transport req = TransportFulfils elapsed response)
  /\ (final_state call = Some (Fulfilled (JsBool false))
      <-> exists elapsed e,
            transport broken_transport req = TransportRejects elapsed e
            /\ errStatusCode e = Some 404)
  /\ (forall e, transport broken_transport req = TransportThrows e ->
        final_state call = Some (Rejected (ReasonRaw e))).
Proof.
  intros call req. split; [reflexivity|]. split; [reflexivity|].
  apply (exists_check_by_transport Node.STATUS_CODES client
           (CouchDb.CheckDatabaseExists (Some "db")) broken_transport req);
    reflexivity.
Defined.

(** ** The normalized error *)

Lemma statusCode_nonempty (T1 : gmap Z string) (T2 : option (gmap Z string))
    (S : option Z) :
  CouchDb.statusCode T1 T2 S <> EmptyString.
Proof.
  unfold CouchDb.statusCode, or_default.
  destruct (S ≫= _) as [m|]; [|discriminate].
  destruct (String.eqb_spec m EmptyString); [discriminate|assumption].
Qed.

(** X9: when the promise of any public method ends rejected with a
    normalized error, the transport's promise for the one request sent was
    rejected with exactly the error the object carries, [duration] is the time
    the transport took, [status] is the error's status code or 500 and never
    0, and [message] is never empty. *)
Theorem normalized_rejection (T1 : gmap Z string) (self : CouchDb.t)
    (op : CouchDb.Operation) (env : Env) (n : NormalizedError) :
  final_state (CouchDb.invoke T1 self op env) = Some (Rejected (ReasonNormalized n)) ->
  (exists req elapsed,
     sent (CouchDb.invoke T1 self op env) = [req]
     /\ transport env req = TransportRejects elapsed (error n)
     /\ duration n = elapsed)
  /\ status n = or_number (errStatusCode (error n)) 500
  /\ status n <> 0
  /\ message n <> EmptyString.
Proof.
  assert (Hset : forall o req,
            settlement T1 o (transport env req) = Rejected (ReasonNormalized n) ->
            (exists elapsed,
               transport env req = TransportRejects elapsed (error n)
               /\ duration n = elapsed)
            /\ status n = or_number (errStatusCode (error n)) 500
            /\ status n <> 0
            /\ message n <> EmptyString).
  { intros o req Hs. destruct (transport env req) as [e|dt r|dt e]; try discriminate.
    simpl in Hs. injection Hs as <-. simpl.
    split; [eexists; split; reflexivity|]. split; [reflexivity|].
    split; [|apply statusCode_nonempty].
    unfold or_number. destruct (errStatusCode e) as [s|]; [|discriminate].
    destruct (Z.eqb_spec s 0); [discriminate|assumption]. }
  destruct (invoke_shape T1 self op env) as [reason|e|o _|o _].
  - discriminate.
  - discriminate.
  - destruct (request_settlement T1 self o env) as (req & p & Hs & Hp & _ & Ho & _).
    unfold final_state, promise_of. rewrite Hp; simpl. rewrite Ho, Hs.
    intros [= H]. destruct (Hset o req H) as ((dt & Ht & Hd) & rest).
    split; [exists req, dt; auto|exact rest].
  - destruct (exists_check_promise T1 self o env) as (req & p & Hs & Hp & _ & _ & Ho).
    unfold final_state, promise_of. rewrite Hp, sent_exists_check; simpl.
    rewrite Ho, Hs.
    destruct (settlement T1 o (transport env req)) as [v|reason] eqn:Hset';
      [discriminate|].
    destruct (CouchDb.is_404 reason); [discriminate|].
    intros [= ->]. destruct (Hset o req Hset') as ((dt & Ht & Hd) & rest).
    split; [exists req, dt; auto|exact rest].
Qed.

Lemma normalized_rejection_witness :
  let call := CouchDb.invoke Node.STATUS_CODES client CouchDb.GetDatabases (server 401) in
  let n :=
    {| error := StatusCodeError 401 JsNull;
       status := 401;
       message := "Unauthorized - CouchDB Server Administrator privileges required";
       duration := 7 |} in
  final_state call = Some (Rejected (ReasonNormalized n))
  /\ (exists req elapsed,
        sent call = [req]
        /\ transport (server 401) req = TransportRejects elapsed (error n)
        /\ duration n = elapsed)
  /\ status n = or_number (errStatusCode (error n)) 500
  /\ status n <> 0
  /\ message n <> EmptyString.
Proof.
  intros call n. split; [vm_compute; reflexivity|].
  apply (normalized_rejection Node.STATUS_CODES client CouchDb.GetDatabases
           (server 401) n).
  vm_compute; reflexivity.
Defined.

(** ** [copyDocument] *)

(** X10: with a database name available, [copyDocument] returns the promise
    rejected with [Invalid docId or newDocId], sending nothing, when either
    id is the empty string; with both ids non-empty it sends one [COPY]
    request to the encoded database and source document. *)
Theorem copyDocument_requires_ids (T1 : gmap Z string) (self : CouchDb.t)
    (docId newDocId : string) (arg : option string) (db : string) (env : Env) :
  truthy_string (or_string arg (CouchDb.defaultDatabase self)) = Some db ->
  (docId = EmptyString \/ newDocId = EmptyString ->
     CouchDb.copyDocument T1 self docId newDocId arg env
     = reject_now "Invalid docId or newDocId")
  /\ (docId <> EmptyString -> newDocId <> EmptyString ->
        exists req,
          sent (CouchDb.copyDocument T1 self docId newDocId arg env) = [req]
          /\ RequestOptions.method req = Some COPY
          /\ RequestOptions.uri req
             = Some ((CouchDb.host self ++ ":" ++ NumberToString (CouchDb.port self))
                     ++ "/" ++ encodeURIComponent db ++ "/"
                     ++ encodeURIComponent docId)).
Proof.
  intros Hdb. unfold CouchDb.copyDocument, CouchDb.with_db. rewrite Hdb. split.
  - intros [->| ->]; simpl; [reflexivity|].
    destruct (negb (docId =? ""))%string; reflexivity.
  - intros Hd Hn. simpl.
    destruct (String.eqb_spec docId EmptyString); [contradiction|].
    destruct (String.eqb_spec newDocId EmptyString); [contradiction|]. simpl.
    match goal with
    | |- context [CouchDb.request T1 self ?o env] =>
        destruct (request_sent_fields T1 self o env) as (req & Hs & _ & _ & _ & _ & Hm);
        destruct (request_sent T1 self o env) as (req' & Hs' & Hu & _)
    end.
    rewrite Hs in Hs'. injection Hs' as <-.
    exists req. split; [exact Hs|]. split; [exact Hm|exact Hu].
Qed.

Lemma copyDocument_requires_ids_witness :
  truthy_string (or_string (Some "db") (CouchDb.defaultDatabase client)) = Some "db"
  /\ (("a" : string) = EmptyString \/ EmptyString = EmptyString ->
        CouchDb.copyDocument Node.STATUS_CODES client "a" EmptyString (Some "db")
          (server 201)
        = reject_now "Invalid docId or newDocId")
  /\ (("a" : string) <> EmptyString -> EmptyString <> EmptyString ->
        exists req,
          sent (CouchDb.copyDocument Node.STATUS_CODES client "a" EmptyString
                  (Some "db") (server 201)) = [req]
          /\ RequestOptions.method req = Some COPY
          /\ RequestOptions.uri req
             = Some ((CouchDb.host client ++ ":"
                      ++ NumberToString (CouchDb.port client))
                     ++ "/" ++ encodeURIComponent "db" ++ "/"
                     ++ encodeURIComponent "a")).
Proof.
  split; [reflexivity|].
  apply (copyDocument_requires_ids Node.STATUS_CODES client "a" EmptyString
           (Some "db") "db" (server 201)).
  reflexivity.
Defined.

(** ** Headers that pass the [length] test *)

Lemma request_merges_headers_with_length_witness :
  let h : gmap string JsValue :=
    <["length" := JsString "1.5"]> {["Destination" := JsString "b"]} in
  let options :=
    CouchDb.descriptor (Some "db/a") (Some COPY) JsUndefined (Some h) [] in
  RequestOptions.headers options = Some h
  /\ CouchDb.headers_pass (Some h) = true
  /\ h !! "Destination" = Some (JsString "b")
  /\ exists req merged,
       sent (CouchDb.request Node.STATUS_CODES client options (server 201)) = [req]
       /\ RequestOptions.headers req = Some merged
       /\ merged = Spec.merged_headers h
       /\ merged !! "Destination" = Some (JsString "b").
Proof.
  intros h options.
  split; [reflexivity|]. split; [vm_compute; reflexivity|]. split; [reflexivity|].
  apply (request_merges_headers_with_length Node.STATUS_CODES client options
           (server 201) h "Destination" (JsString "b"));
    [reflexivity|vm_compute; reflexivity|reflexivity].
Defined.

(** The [length] test on values of several types: numeric strings of every
    form, [true] and a one-element array pass when the number is above zero;
    zero, a value that underflows to zero, negatives, [null], [undefined]
    and strings that are no numeric literal do not. *)
Example headers_pass_examples :
  forallb (fun v => CouchDb.headers_pass (Some {["length" := v]}))
    [JsNumber 1; JsString "1"; JsString "1.5"; JsString "1e3"; JsString "0x10";
     JsString "Infinity"; JsString " .5 "; JsBool true; JsArray [JsString "2"]]
  = true
  /\ forallb (fun v => negb (CouchDb.headers_pass (Some {["length" := v]})))
       [JsNumber 0; JsNumber (-1); JsString EmptyString; JsString "0";
        JsString "-1.5"; JsString "1e-400"; JsString "1px"; JsString "0x";
        JsBool false; JsNull; JsUndefined; JsArray []; JsObject [];
        JsArray [JsNumber 1; JsNumber 2]]
     = true
  /\ CouchDb.headers_pass (Some ∅) = false
  /\ CouchDb.headers_pass None = false.
Proof. repeat split; vm_compute; reflexivity. Qed.

(** ** Query strings in the two classes *)

Lemma QUERY_KEYS_JSON_NoDup : NoDup CouchDBAdmin.QUERY_KEYS_JSON.
Proof. compute_done. Qed.

Lemma stringify_keys_id (obj : gmap string JsValue) :
  (forall k, k ∈ CouchDBAdmin.QUERY_KEYS_JSON -> obj !! k = None) ->
  foldl CouchDBAdmin.stringify_key obj CouchDBAdmin.QUERY_KEYS_JSON = obj.
Proof.
  intros H. apply map_eq. intros k.
  rewrite (stringify_keys_lookup _ QUERY_KEYS_JSON_NoDup).
  destruct (decide (k ∈ CouchDBAdmin.QUERY_KEYS_JSON)) as [Hin|_]; [|reflexivity].
  rewrite (H k Hin). reflexivity.
Qed.

Lemma createQueryString_plain (obj : gmap string JsValue) :
  (forall k, k ∈ CouchDBAdmin.QUERY_KEYS_JSON -> obj !! k = None) ->
  CouchDb.createQueryString (Some obj)
  = inr (CouchDBAdmin.createQueryString (Some obj)).
Proof.
  intros H. unfold CouchDb.createQueryString, CouchDBAdmin.createQueryString.
  change (Object_assign_undefined (Some obj)) with obj.
  rewrite (stringify_keys_id obj H). reflexivity.
Qed.

(** X12: on a query object that holds none of [key], [keys], [startkey] and
    [endkey], [CouchDb.createQueryString] and [CouchDBAdmin.createQueryString]
    compose the same string. *)
Theorem createQueryString_agree (obj : gmap string JsValue) :
  obj !! "key" = None ->
  obj !! "keys" = None ->
  obj !! "startkey" = None ->
  obj !! "endkey" = None ->
  CouchDb.createQueryString (Some obj)
  = inr (CouchDBAdmin.createQueryString (Some obj)).
Proof.
  intros H1 H2 H3 H4. apply createQueryString_plain. intros k Hk.
  unfold CouchDBAdmin.QUERY_KEYS_JSON in Hk.
  repeat (apply elem_of_cons in Hk as [->|Hk]; [assumption|]).
  inversion Hk.
Qed.

Lemma createQueryString_agree_witness :
  ({["limit" := JsNumber 5]} : gmap string JsValue) !! "key" = None
  /\ ({["limit" := JsNumber 5]} : gmap string JsValue) !! "keys" = None
  /\ ({["limit" := JsNumber 5]} : gmap string JsValue) !! "startkey" = None
  /\ ({["limit" := JsNumber 5]} : gmap string JsValue) !! "endkey" = None
  /\ CouchDb.createQueryString (Some {["limit" := JsNumber 5]})
     = inr (CouchDBAdmin.createQueryString (Some {["limit" := JsNumber 5]})).
Proof.
  split; [reflexivity|]. split; [reflexivity|]. split; [reflexivity|].
  split; [reflexivity|].
  apply (createQueryString_agree {["limit" := JsNumber 5]}); reflexivity.
Defined.

Lemma stringify_keys_empty_iff (obj : gmap string JsValue) :
  foldl CouchDBAdmin.stringify_key obj CouchDBAdmin.QUERY_KEYS_JSON = ∅ <-> obj = ∅.
Proof.
  split.
  - intros H. apply map_eq. intros k. rewrite lookup_empty.
    assert (Hk : foldl CouchDBAdmin.stringify_key obj CouchDBAdmin.QUERY_KEYS_JSON !! k
                 = None) by (rewrite H; apply lookup_empty).
    rewrite (stringify_keys_lookup _ QUERY_KEYS_JSON_NoDup) in Hk.
    destruct (decide _); [|exact Hk].
    destruct (obj !! k); [discriminate|reflexivity].
  - intros ->. reflexivity.
Qed.

(** X13: [CouchDBAdmin.createQueryString] never throws; it composes the empty
    string exactly for an omitted query object and for the empty object, and
    a string that starts with a question mark for every other object. *)
Theorem admin_createQueryString_empty_iff (queryObj : option (gmap string JsValue)) :
  (CouchDBAdmin.createQueryString queryObj = EmptyString
   <-> queryObj = None \/ queryObj = Some ∅)
  /\ (CouchDBAdmin.createQueryString queryObj = EmptyString
      \/ exists rest, CouchDBAdmin.createQueryString queryObj = "?" ++ rest).
Proof.
  unfold CouchDBAdmin.createQueryString. split; [split|].
  - destruct (0 <? size _)%nat eqn:Hsize; [intros H; discriminate|].
    intros _. apply Nat.ltb_ge in Hsize.
    assert (Hempty : foldl CouchDBAdmin.stringify_key
                       (Object_assign_undefined queryObj)
                       CouchDBAdmin.QUERY_KEYS_JSON = ∅)
      by (apply map_size_empty_iff; lia).
    apply (proj1 (stringify_keys_empty_iff _)) in Hempty.
    destruct queryObj as [obj|]; [right|left; reflexivity].
    f_equal. exact Hempty.
  - intros [->| ->]; reflexivity.
  - destruct (0 <? size _)%nat; [right; eexists; reflexivity|left; reflexivity].
Qed.

Lemma sorted_entries_lookup (obj : gmap string JsValue) (k : string) (v : JsValue) :
  In (k, v) (QueryString.sorted_entries obj) -> obj !! k = Some v.
Proof.
  unfold QueryString.sorted_entries. intros Hin.
  apply list_elem_of_In in Hin.
  rewrite merge_sort_Permutation in Hin.
  apply elem_of_map_to_list in Hin. exact Hin.
Qed.

Lemma createQueryString_undefined_values (obj : gmap string JsValue) :
  (0 < size obj)%nat ->
  (forall k v, obj !! k = Some v -> v = JsUndefined) ->
  CouchDb.createQueryString (Some obj) = inr "?".
Proof.
  intros Hne Hall. unfold CouchDb.createQueryString.
  apply Nat.ltb_lt in Hne. rewrite Hne.
  f_equal. unfold QueryString.stringify.
  assert (Hnil : List.filter QueryString.nonempty
                   (map QueryString.stringify_entry (QueryString.sorted_entries obj))
                 = []).
  { pose proof (sorted_entries_lookup obj) as Hlook.
    induction (QueryString.sorted_entries obj) as [|[k v] rest IH]; [reflexivity|].
    simpl. rewrite (Hall k v) by (apply Hlook; left; reflexivity). simpl.
    apply IH. intros k' v' Hin. apply Hlook. right. exact Hin. }
  rewrite Hnil. reflexivity.
Qed.

(** X14: an options object that is not empty but whose values are all
    [undefined] makes [CouchDb.createQueryString] compose a bare question
    mark: the keys are dropped by [querystring.stringify], the question mark
    stays. *)
Theorem createQueryString_all_undefined (obj : gmap string JsValue) :
  (0 < size obj)%nat ->
  CouchDb.createQueryString (Some ((fun _ => JsUndefined) <$> obj)) = inr "?".
Proof.
  intros Hne. apply createQueryString_undefined_values.
  - rewrite map_size_fmap. exact Hne.
  - intros k v Hk. rewrite lookup_fmap in Hk.
    destruct (obj !! k); simpl in Hk; [congruence|discriminate].
Qed.

Lemma createQueryString_all_undefined_witness :
  (0 < size ({["limit" := JsNumber 5]} : gmap string JsValue))%nat
  /\ CouchDb.createQueryString
       (Some ((fun _ => JsUndefined) <$> {["limit" := JsNumber 5]}))
     = inr "?".
Proof.
  split; [vm_compute; lia|].
  apply (createQueryString_all_undefined {["limit" := JsNumber 5]}).
  vm_compute; lia.
Defined.


(** ** [CouchDBAdmin] as a whole *)

Lemma admin_invoke_shape (T1 : gmap Z string) (admin : CouchDBAdmin.t)
    (op : CouchDBAdmin.Operation) (env : Env) :
  if locally_rejected op
  then exists reason, CouchDBAdmin.invoke T1 admin op env = reject_now reason
  else exists o,
         CouchDBAdmin.invoke T1 admin op env
         = CouchDb.request T1 (as_client admin) o env
         /\ CouchDb.headers_pass (RequestOptions.headers o) = false.
Proof.
  destruct op; unfold locally_rejected; unfold_admin_methods;
    repeat case_match; try discriminate;
    first [ eexists; reflexivity
          | eexists; split; [apply admin_request_eq|reflexivity] ].
Qed.

(** X16: no method of [CouchDBAdmin] throws, an omitted query object
    included; each returns a promise whose [resolve] or [reject] runs exactly
    once.  Nothing is sent, and the promise is rejected on return, only for
    [createDatabase] on a name outside the pattern and [copyDocument] with an
    empty id; every other call sends exactly one request, an empty database
    name not being checked. *)
Theorem admin_invoke_sent (T1 : gmap Z string) (admin : CouchDBAdmin.t)
    (op : CouchDBAdmin.Operation) (env : Env) :
  (exists p, completion (CouchDBAdmin.invoke T1 admin op env) = Returns p
             /\ settle_calls p = 1%nat /\ is_Some (outcome p))
  /\ (locally_rejected op = true ->
        sent (CouchDBAdmin.invoke T1 admin op env) = []
        /\ exists reason,
             state_on_return (CouchDBAdmin.invoke T1 admin op env)
             = Some (Rejected (ReasonString reason)))
  /\ (locally_rejected op = false ->
        exists req, sent (CouchDBAdmin.invoke T1 admin op env) = [req]).
Proof.
  pose proof (admin_invoke_shape T1 admin op env) as H.
  destruct (locally_rejected op).
  - destruct H as [reason ->]. split; [|split; [|discriminate]].
    + eexists. split; [reflexivity|]. split; [reflexivity|eexists; reflexivity].
    + intros _. split; [reflexivity|]. exists reason. reflexivity.
  - destruct H as (o & -> & _).
    destruct (request_settlement T1 (as_client admin) o env)
      as (req & p & Hs & Hp & Hc & Ho & _).
    split; [|split; [discriminate|]].
    + exists p. rewrite Ho. split; [exact Hp|]. split; [exact Hc|eexists; reflexivity].
    + intros _. exists req. exact Hs.
Qed.

(** X17: whatever port the caller passes to the constructor of
    [CouchDBAdmin], every request of every method goes to port 5984 of the
    configured host. *)
Theorem admin_requests_use_port_5984 (T1 : gmap Z string)
    (options : option Connection.t) (op : CouchDBAdmin.Operation) (env : Env)
    (req : RequestOptions.t) :
  sent (CouchDBAdmin.invoke T1 (fst (CouchDBAdmin.constructor options)) op env)
  = [req] ->
  exists path,
    RequestOptions.uri req
    = Some ((or_default (Connection.host (default Connection.empty options))
               "http://127.0.0.1" ++ ":5984") ++ "/" ++ path).
Proof.
  intros Hin.
  pose proof (admin_invoke_shape T1 (fst (CouchDBAdmin.constructor options)) op env)
    as H.
  destruct (locally_rejected op).
  - destruct H as [reason Heq]. rewrite Heq in Hin. discriminate.
  - destruct H as (o & Heq & _). rewrite Heq in Hin.
    destruct (request_sent T1 (as_client (fst (CouchDBAdmin.constructor options)))
                o env) as (r & Hs & Hu & _).
    rewrite Hs in Hin. injection Hin as ->.
    eexists. exact Hu.
Qed.

Lemma admin_requests_use_port_5984_witness :
  let options :=
    Some (Connection.mk (Some "http://db.example") (Some 1433) None None None) in
  let call :=
    CouchDBAdmin.invoke Node.STATUS_CODES (fst (CouchDBAdmin.constructor options))
      CouchDBAdmin.ListDatabases (server 200) in
  let req := hd RequestOptions.empty (sent call) in
  sent call = [req]
  /\ exists path,
       RequestOptions.uri req
       = Some ((or_default (Connection.host (default Connection.empty options))
                  "http://127.0.0.1" ++ ":5984") ++ "/" ++ path).
Proof.
  intros options call req. split; [reflexivity|].
  apply (admin_requests_use_port_5984 Node.STATUS_CODES options
           CouchDBAdmin.ListDatabases (server 200) req).
  reflexivity.
Defined.

Lemma field_lookup_set (k k' : string) (v : JsValue) (t : list (string * JsValue)) :
  field_lookup k (field_set k' v t)
  = if String.eqb k' k then Some v else field_lookup k t.
Proof.
  induction t as [|[a b] t IH]; simpl.
  - reflexivity.
  - destruct (String.eqb_spec a k') as [->|Hne]; simpl.
    + destruct (String.eqb_spec k' k); reflexivity.
    + destruct (String.eqb_spec a k) as [->|Hak].
      * destruct (String.eqb_spec k' k); [congruence|reflexivity].
      * exact IH.
Qed.

Lemma field_lookup_assign (k : string) (source target : list (string * JsValue)) :
  NoDup (map fst source) ->
  field_lookup k (assign_fields target source)
  = match field_lookup k source with
    | Some v => Some v
    | None => field_lookup k target
    end.
Proof.
  unfold assign_fields. intros Hnd. revert target.
  induction source as [|[a b] source IH]; intros target; simpl; [reflexivity|].
  apply NoDup_cons in Hnd as [Hnotin Hnd].
  rewrite (IH Hnd). rewrite field_lookup_set.
  destruct (String.eqb_spec a k) as [->|Hne]; [|reflexivity].
  destruct (field_lookup k source) as [v|] eqn:Hk; [|reflexivity].
  exfalso. apply Hnotin. clear -Hk.
  induction source as [|[a' b'] source IH]; simpl in *; [discriminate|].
  destruct (String.eqb_spec a' k) as [->|]; [left|right; apply IH, Hk].
Qed.

(** X18: the body [CouchDBAdmin.createDocuments] sends is an object in which
    every property of [opts] is present with the value [opts] gives it, a
    [docs] property of [opts] replacing the documents passed as argument,
    and which otherwise holds [docs] alone. *)
Theorem admin_createDocuments_body (T1 : gmap Z string) (admin : CouchDBAdmin.t)
    (dbName : string) (docs : list JsValue)
    (opts : option (list (string * JsValue))) (env : Env) (k : string) :
  NoDup (map fst (default [] opts)) ->
  exists req fields,
    sent (CouchDBAdmin.createDocuments T1 admin dbName docs opts env) = [req]
    /\ RequestOptions.body req = JsObject fields
    /\ field_lookup k fields
       = match field_lookup k (default [] opts) with
         | Some v => Some v
         | None => if String.eqb "docs" k then Some (JsArray docs) else None
         end.
Proof.
  intros Hnd. unfold CouchDBAdmin.createDocuments. rewrite admin_request_eq.
  match goal with
  | |- context [CouchDb.request T1 ?s ?o env] =>
      destruct (request_sent_fields T1 s o env) as (req & Hs & _ & _ & _ & Hb & _)
  end.
  exists req. eexists. split; [exact Hs|]. split; [exact Hb|].
  rewrite (field_lookup_assign k _ _ Hnd). reflexivity.
Qed.

Lemma admin_createDocuments_body_witness :
  let opts := Some [("new_edits", JsBool false); ("docs", JsArray [])] in
  NoDup (map fst (default [] opts))
  /\ exists req fields,
       sent (CouchDBAdmin.createDocuments Node.STATUS_CODES
               (fst (CouchDBAdmin.constructor None)) "db" [JsNull] opts (server 201))
       = [req]
       /\ RequestOptions.body req = JsObject fields
       /\ field_lookup "docs" fields
          = match field_lookup "docs" (default [] opts) with
            | Some v => Some v
            | None =>
                if String.eqb "docs" "docs" then Some (JsArray [JsNull]) else None
            end.
Proof.
  intros opts.
  assert (Hnd : NoDup (map fst (default [] opts)))
    by (apply (bool_decide_unpack _); vm_compute; exact I).
  split; [exact Hnd|].
  apply (admin_createDocuments_body Node.STATUS_CODES
           (fst (CouchDBAdmin.constructor None)) "db" [JsNull] opts (server 201)
           "docs" Hnd).
Defined.

Lemma plain_query_spec (obj : gmap string JsValue) :
  plain_query obj = true ->
  forall k, k ∈ CouchDBAdmin.QUERY_KEYS_JSON -> obj !! k = None.
Proof.
  unfold plain_query. rewrite forallb_forall. intros H k Hk.
  apply list_elem_of_In in Hk. specialize (H k Hk).
  destruct (obj !! k); [discriminate|reflexivity].
Qed.

Lemma named_truthy (db : string) (d : option string) :
  named db = true -> truthy_string (or_string (Some db) d) = Some db.
Proof.
  unfold named, truthy_string, or_string.
  destruct (String.eqb db EmptyString) eqn:H; [discriminate|].
  rewrite H. reflexivity.
Qed.

(** X19: for the methods whose descriptors coincide in the two classes,
    called with a non-empty database name, with a query object that is given
    and holds no structured key, and without [opts], a call of [CouchDBAdmin]
    is the same call, with the same request, settlement and log, as the
    corresponding call of [CouchDb] on the same connection. *)
Theorem admin_agrees_with_client (T1 : gmap Z string) (admin : CouchDBAdmin.t)
    (aop : CouchDBAdmin.Operation) (cop : CouchDb.Operation) (env : Env) :
  counterpart aop = Some cop ->
  CouchDBAdmin.invoke T1 admin aop env
  = CouchDb.invoke T1 (as_client admin) cop env.
Proof.
  intros H.
  destruct aop; simpl in H;
    repeat match type of H with
           | context [match ?x with _ => _ end] => destruct x eqn:?
           end; try discriminate; injection H as <-;
    repeat match goal with
           | Hn : _ && _ = true |- _ => apply andb_true_iff in Hn as [? ?]
           end;
    unfold_admin_methods; unfold_methods;
    repeat match goal with
           | Hn : named ?db = true |- _ =>
               rewrite (named_truthy db _ Hn); clear Hn
           | Hq : plain_query ?obj = true |- _ =>
               rewrite (createQueryString_plain obj (plain_query_spec obj Hq));
               clear Hq
           end;
    repeat case_match; reflexivity.
Qed.

Lemma admin_agrees_with_client_witness :
  counterpart (CouchDBAdmin.GetDocument "db" "doc" (Some {["rev" := JsString "1-x"]}))
  = Some (CouchDb.GetDocument "doc" (Some "db") (Some {["rev" := JsString "1-x"]}))
  /\ CouchDBAdmin.invoke Node.STATUS_CODES (fst (CouchDBAdmin.constructor None))
       (CouchDBAdmin.GetDocument "db" "doc" (Some {["rev" := JsString "1-x"]}))
       (server 200)
     = CouchDb.invoke Node.STATUS_CODES
         (as_client (fst (CouchDBAdmin.constructor None)))
         (CouchDb.GetDocument "doc" (Some "db") (Some {["rev" := JsString "1-x"]}))
         (server 200).
Proof.
  split; [reflexivity|].
  apply (admin_agrees_with_client Node.STATUS_CODES
           (fst (CouchDBAdmin.constructor None))
           (CouchDBAdmin.GetDocument "db" "doc" (Some {["rev" := JsString "1-x"]}))
           (CouchDb.GetDocument "doc" (Some "db") (Some {["rev" := JsString "1-x"]}))
           (server 200)).
  reflexivity.
Defined.
